(** * symsift: cross-stream resolution of vftable types from llvm-pdbutil dumps

    Shallow embedding of [src/symsift.py] and the properties of its core:
    the section table, the vftable symbol extractor, the type record stream
    reader, the class/struct merger and the final partition.

    Conventions of the embedding.
    - Text is [string]: a sequence of code points below 256.  The character
      classes of Python's [re] ([\s], [\d], [\w]) and of [str.strip] are
      given for that range as CPython defines them on [str] patterns.
    - Python [int] is [Z]; a [dict] is a [gmap]; the catalog values, which
      are Python lists holding integers and strings, are [list pyval].
    - An exception is a value of [exn]; a function that may raise returns a
      [result].  The functions that mutate the dictionaries they are handed
      run in the monad [M], whose store survives a raise, as the mutations
      of a Python object survive an exception.
    - Every compiled pattern of the source is a function of the same name
      that computes what [search] (or [match], or [findall]) computes for
      that pattern: the groups of the match the backtracking engine finds
      first. *)

From Stdlib Require Import ZArith NArith Ascii String List Bool Lia.
From stdpp Require Import base option gmap strings list fin_maps.

Local Open Scope string_scope.
Local Open Scope Z_scope.

(** ** Characters *)

Module Chars.

Definition code (c : ascii) : N := N_of_ascii c.

Definition between (lo hi : N) (c : ascii) : bool :=
  ((lo <=? code c) && (code c <=? hi))%N.

(** [[0-9]], and [\d] on code points below 256. *)
Definition is_digit (c : ascii) : bool := between 48 57 c.

(** [[A-Fa-f0-9]] and [[\da-fA-F]]. *)
Definition is_hex (c : ascii) : bool :=
  is_digit c || between 65 70 c || between 97 102 c.

(** [[0-9-A-Fx]]: the digits, the hyphen, [A] to [F] and [x]. *)
Definition is_index_char (c : ascii) : bool :=
  is_digit c || (code c =? 45)%N || between 65 70 c || (code c =? 120)%N.

(** [\s], which is also what [str.strip] removes. *)
Definition is_space (c : ascii) : bool :=
  between 9 13 c || between 28 32 c || (code c =? 133)%N || (code c =? 160)%N.

(** [\w]: alphanumeric code points and the underscore. *)
Definition is_word (c : ascii) : bool :=
  is_digit c || between 65 90 c || between 97 122 c || (code c =? 95)%N
  || (code c =? 170)%N || (code c =? 178)%N || (code c =? 179)%N
  || (code c =? 181)%N || (code c =? 185)%N || (code c =? 186)%N
  || between 188 190 c || between 192 214 c || between 216 246 c
  || between 248 255 c.

Definition is_newline (c : ascii) : bool := (code c =? 10)%N.

(** The line feed. *)
Definition nl : string := String (ascii_of_N 10) EmptyString.

End Chars.

Import Chars.

(** ** Matching primitives

    Each primitive takes the text from the current position to its end and
    returns what is left after the piece it consumed. *)

Module Re.

(** A literal: the rest after [p] when the text starts with [p]. *)
Fixpoint lit (p s : string) : option string :=
  match p with
  | EmptyString => Some s
  | String a p' =>
      match s with
      | EmptyString => None
      | String b s' => if Ascii.eqb a b then lit p' s' else None
      end
  end.

Definition starts_with (p s : string) : bool :=
  match lit p s with Some _ => true | None => false end.

(** [cls*], greedy: the longest run of [cls] and the rest. *)
Fixpoint many (cls : ascii -> bool) (s : string) : string * string :=
  match s with
  | EmptyString => (EmptyString, EmptyString)
  | String c s' =>
      if cls c then let '(r, t) := many cls s' in (String c r, t)
      else (EmptyString, s)
  end.

(** [cls+], greedy, where what follows cannot start with a [cls]
    character: only the longest run can match. *)
Definition many1 (cls : ascii -> bool) (s : string) : option (string * string) :=
  match many cls s with
  | (EmptyString, _) => None
  | (r, t) => Some (r, t)
  end.

(** [search]: the match at the leftmost position that has one. *)
Fixpoint search {A} (m : string -> option A) (s : string) : option A :=
  match m s with
  | Some r => Some r
  | None =>
      match s with
      | EmptyString => None
      | String _ s' => search m s'
      end
  end.

(** [.*] under [re.DOTALL], greedy, followed by [m]: the match of [m] at
    the rightmost position that has one. *)
Fixpoint after_any {A} (m : string -> option A) (s : string) : option A :=
  match s with
  | EmptyString => m EmptyString
  | String _ s' =>
      match after_any m s' with
      | Some r => Some r
      | None => m s
      end
  end.

(** [.*] without [re.DOTALL]: as [after_any], but the dot does not cross
    a line feed. *)
Fixpoint after_any_line {A} (m : string -> option A) (s : string) : option A :=
  match s with
  | EmptyString => m EmptyString
  | String c s' =>
      if is_newline c then m s
      else match after_any_line m s' with
           | Some r => Some r
           | None => m s
           end
  end.

(** [(.+?)d] under [re.DOTALL]: the shortest non-empty text followed by
    the literal [d]. *)
Fixpoint lazy_until (d s : string) : option string :=
  match s with
  | EmptyString => None
  | String c s' =>
      if starts_with d s' then Some (String c EmptyString)
      else option_map (String c) (lazy_until d s')
  end.

(** [(.+)d] without [re.DOTALL]: the longest non-empty text free of line
    feeds that is followed by the literal [d]. *)
Fixpoint greedy_until (d s : string) : option string :=
  match s with
  | EmptyString => None
  | String c s' =>
      if is_newline c then None
      else match greedy_until d s' with
           | Some r => Some (String c r)
           | None => if starts_with d s' then Some (String c EmptyString) else None
           end
  end.

(** [\b] after a text that ends in a word character: the end of the
    text, or a character that is not a word character. *)
Definition boundary_after_word (s : string) : bool :=
  match s with
  | EmptyString => true
  | String c _ => negb (is_word c)
  end.

End Re.

(** ** Python values and built-ins *)

Inductive pyval : Type :=
| PInt (z : Z)
| PStr (s : string).

Global Instance pyval_eq_dec : EqDecision pyval.
Proof. solve_decision. Defined.

Inductive exn : Type :=
| KeyError (key : Z)
| ValueError
| AttributeError
| AssertionError
| IndexError
| TypeError.

Inductive result (A : Type) : Type :=
| Ok (a : A)
| Raise (e : exn).
Arguments Ok {A} a.
Arguments Raise {A} e.

Definition rbind {A B} (r : result A) (k : A -> result B) : result B :=
  match r with
  | Ok a => k a
  | Raise e => Raise e
  end.

Module Py.

Definition digit_value (c : ascii) : Z :=
  if is_digit c then Z.of_N (code c) - 48
  else if between 65 70 c then Z.of_N (code c) - 55
  else Z.of_N (code c) - 87.

(** The value of a run of digits in base [base], most significant first. *)
Fixpoint digits_value (base acc : Z) (s : string) : Z :=
  match s with
  | EmptyString => acc
  | String c s' => digits_value base (base * acc + digit_value c) s'
  end.

Fixpoint all_chars (cls : ascii -> bool) (s : string) : bool :=
  match s with
  | EmptyString => true
  | String c s' => cls c && all_chars cls s'
  end.

Definition unsigned_of_digits (base : Z) (cls : ascii -> bool) (s : string) : result Z :=
  match s with
  | EmptyString => Raise ValueError
  | _ => if all_chars cls s then Ok (digits_value base 0 s) else Raise ValueError
  end.

Definition strip_sign (s : string) : bool * string :=
  match s with
  | String "-" s' => (true, s')
  | String "+" s' => (false, s')
  | _ => (false, s)
  end.

Definition apply_sign (neg : bool) (z : Z) : Z := if neg then - z else z.

(** The default of [sys.int_max_str_digits]: the longest run of digits
    that [int] converts in a base that is not a power of two. *)
Definition int_max_str_digits : nat := 4300.

(** [int(s)] and [int(s, 10)] on a text without blanks or underscores: an
    optional sign and decimal digits, at most [int_max_str_digits] of
    them; anything else is a [ValueError]. *)
Definition int10 (s : string) : result Z :=
  let '(neg, d) := strip_sign s in
  if (int_max_str_digits <? String.length d)%nat then Raise ValueError
  else rbind (unsigned_of_digits 10 is_digit d) (fun z => Ok (apply_sign neg z)).

(** [int(s, 16)] on a text without blanks or underscores: an optional
    sign, an optional [0x] or [0X], and hexadecimal digits, of which
    there may be any number. *)
Definition int16 (s : string) : result Z :=
  let '(neg, d) := strip_sign s in
  let body :=
    match d with
    | String "0" (String "x" h) => h
    | String "0" (String "X" h) => h
    | _ => d
    end in
  rbind (unsigned_of_digits 16 is_hex body) (fun z => Ok (apply_sign neg z)).

(** [s.strip()]. *)
Fixpoint lstrip (s : string) : string :=
  match s with
  | EmptyString => EmptyString
  | String c s' => if is_space c then lstrip s' else s
  end.

Fixpoint rstrip (s : string) : string :=
  match s with
  | EmptyString => EmptyString
  | String c s' =>
      match rstrip s' with
      | EmptyString => if is_space c then EmptyString else String c EmptyString
      | r => String c r
      end
  end.

Definition strip (s : string) : string := rstrip (lstrip s).

(** [s.split(":")]. *)
Fixpoint split_colon (s : string) : list string :=
  match s with
  | EmptyString => [EmptyString]
  | String c s' =>
      if Ascii.eqb c ":" then EmptyString :: split_colon s'
      else match split_colon s' with
           | w :: ws => String c w :: ws
           | [] => [String c EmptyString]
           end
  end.

(** [sub in s]. *)
Fixpoint contains (sub s : string) : bool :=
  Re.starts_with sub s ||
  match s with
  | EmptyString => false
  | String _ s' => contains sub s'
  end.

(** [len(s)]. *)
Definition len (s : string) : Z := Z.of_nat (String.length s).

(** [len(l)]. *)
Definition len_list {A} (l : list A) : Z := Z.of_nat (List.length l).

End Py.

(** ** The compiled patterns of the source *)

Import Re.

Notation "'let?' x := e 'in' k" :=
  (match e with Some x => k | None => None end)
  (at level 10, x pattern, e at level 100, k at level 200, only parsing).

(** [^\s*(0x[\da-fA-F]+)\s*\|\s*(LF_\w+)].  Without [re.MULTILINE] the
    caret holds at the first position only, so [search] is a match there.
    The groups are the index with its [0x] and the leaf kind. *)
Definition g_type_header_regexp (s : string) : option (string * string) :=
  let s := snd (many is_space s) in
  let? s := lit "0x" s in
  let? (hex, s) := many1 is_hex s in
  let s := snd (many is_space s) in
  let? s := lit "|" s in
  let s := snd (many is_space s) in
  let? s := lit "LF_" s in
  let? (kind, _) := many1 is_word s in
  Some ("0x" ++ hex, "LF_" ++ kind).

(** [forward ref \(-> ([0-9-A-Fx]+)\)] at one position. *)
Definition fwd_ref_here (s : string) : option string :=
  let? s := lit "forward ref (-> " s in
  let? (idx, s) := many1 is_index_char s in
  let? _ := lit ")" s in
  Some idx.

Definition g_fwd_ref_regexp : string -> option string := search fwd_ref_here.

(** [\bscoped\b] somewhere in [s]; [prev] tells whether the character
    before [s] is a word character. *)
Fixpoint scoped_word (prev : bool) (s : string) : bool :=
  match s with
  | EmptyString => false
  | String c s' =>
      (negb prev &&
       match lit "scoped" s with
       | Some t => boundary_after_word t
       | None => false
       end)
      || scoped_word (is_word c) s'
  end.

(** [\boptions:.*\bscoped\b] under [re.DOTALL]; the source only asks
    whether [search] finds a match. *)
Fixpoint options_scoped (prev : bool) (s : string) : bool :=
  match s with
  | EmptyString => false
  | String c s' =>
      (negb prev &&
       match lit "options:" s with
       | Some t => scoped_word false t
       | None => false
       end)
      || options_scoped (is_word c) s'
  end.

Definition g_scoped_regexp (s : string) : bool := options_scoped false s.

(** [\s+\[size\s*=\s*[0-9]+\s*]\s+`(.+?)`\n], the part of the class name
    pattern after its [LF_.*]. *)
Definition class_name_tail (s : string) : option string :=
  let? (_, s) := many1 is_space s in
  let? s := lit "[size" s in
  let s := snd (many is_space s) in
  let? s := lit "=" s in
  let s := snd (many is_space s) in
  let? (_, s) := many1 is_digit s in
  let s := snd (many is_space s) in
  let? s := lit "]" s in
  let? (_, s) := many1 is_space s in
  let? s := lit "`" s in
  lazy_until ("`" ++ nl) s.

(** [LF_.*\s+\[size\s*=\s*[0-9]+\s*]\s+`(.+?)`\n] under [re.DOTALL].  A
    match from a later [LF_] is also a match from the first one, so
    [search] starts at the first [LF_] and its greedy [.*] ends at the
    rightmost position where the rest matches. *)
Definition g_class_name_regexp (s : string) : option string :=
  let? t := search (lit "LF_") s in
  after_any class_name_tail t.

(** [field list: ([0-9-A-Fx]+)]. *)
Definition field_list_here (s : string) : option string :=
  let? s := lit "field list: " s in
  let? (idx, _) := many1 is_index_char s in
  Some idx.

Definition g_field_list_regexp : string -> option string := search field_list_here.

(** [unique name:\s`(.+?)`\n] under [re.DOTALL]. *)
Definition unique_name_here (s : string) : option string :=
  let? s := lit "unique name:" s in
  match s with
  | String c s => if is_space c then let? s := lit "`" s in lazy_until ("`" ++ nl) s else None
  | EmptyString => None
  end.

Definition g_unique_name_regexp : string -> option string := search unique_name_here.

(** [sizeof ([0-9]+)]. *)
Definition sizeof_here (s : string) : option string :=
  let? s := lit "sizeof " s in
  let? (n, _) := many1 is_digit s in
  Some n.

Definition g_sizeof_regexp : string -> option string := search sizeof_here.

(** [\]\s+`(.+)(?:::`vftable\')], the part of the symbol pattern after
    its [\[.*]. *)
Definition gdata32_tail (s : string) : option string :=
  let? s := lit "]" s in
  let? (_, s) := many1 is_space s in
  let? s := lit "`" s in
  greedy_until "::`vftable'" s.

(** [(\d+)\s+\|\s+S_GDATA32\s+\[.*\]\s+`(.+)(?:::`vftable\')], used with
    [match]: anchored at the first position.  The groups are the record
    offset and the type name. *)
Definition g_GDATA32_regexp (s : string) : option (string * string) :=
  let? (off, s) := many1 is_digit s in
  let? (_, s) := many1 is_space s in
  let? s := lit "|" s in
  let? (_, s) := many1 is_space s in
  let? s := lit "S_GDATA32" s in
  let? (_, s) := many1 is_space s in
  let? s := lit "[" s in
  let? name := after_any_line gdata32_tail s in
  Some (off, name).

(** [addr\s+=\s+(\d+:\d+)] at one position. *)
Definition addr_here (s : string) : option string :=
  let? s := lit "addr" s in
  let? (_, s) := many1 is_space s in
  let? s := lit "=" s in
  let? (_, s) := many1 is_space s in
  let? (sec, s) := many1 is_digit s in
  let? s := lit ":" s in
  let? (off, _) := many1 is_digit s in
  Some (sec ++ ":" ++ off).

Definition g_addr_regexp : string -> option string := search addr_here.

Definition g_wanted_types : list string := ["LF_CLASS"; "LF_STRUCTURE"; "LF_FIELDLIST"].

(** ** Section address resolver *)

(** [([A-Fa-f0-9]+) virtual address]: the address and the text after the
    match. *)
Definition virtual_address_here (s : string) : option (string * string) :=
  let? (addr, s) := many1 is_hex s in
  let? s := lit " virtual address" s in
  Some (addr, s).

(** [(\d+).*?([A-Fa-f0-9]+) virtual address] under [re.S], with [num] the
    digits already taken by [(\d+)].  The group is greedy and gives digits
    back when the rest finds no match; the lazy [.*?] stops at the first
    position from which the rest matches. *)
Fixpoint section_number (num s : string) : option (string * string * string) :=
  let here :=
    match num with
    | EmptyString => None
    | _ => let? (addr, rest) := search virtual_address_here s in Some (num, addr, rest)
    end in
  match s with
  | String c s' =>
      if is_digit c then
        match section_number (num ++ String c EmptyString) s' with
        | Some r => Some r
        | None => here
        end
      else here
  | EmptyString => here
  end.

(** [SECTION HEADER #(\d+).*?([A-Fa-f0-9]+) virtual address] at one
    position: the two groups and the text after the match. *)
Definition section_header_here (s : string) : option (string * string * string) :=
  let? s := lit "SECTION HEADER #" s in
  section_number EmptyString s.

(** [pattern.findall(file_content)]: the matches from left to right, each
    search resuming where the previous match ended.  [skip] counts the
    characters of [s] that the previous match still covers. *)
Fixpoint findall (skip : nat) (s : string) : list (string * string) :=
  match s with
  | EmptyString => []
  | String _ s' =>
      match skip with
      | S k => findall k s'
      | O =>
          match section_header_here s with
          | Some (num, addr, rest) =>
              (num, addr) :: findall (String.length s' - String.length rest) s'
          | None => findall O s'
          end
      end
  end.

(** The loop of [generate_section2rva] over the matches. *)
Fixpoint fill_section_data (ms : list (string * string)) (section_data : gmap Z Z)
  : result (gmap Z Z) :=
  match ms with
  | [] => Ok section_data
  | (section_number, virtual_address) :: ms' =>
      rbind (Py.int10 section_number) (fun k =>
      rbind (Py.int16 virtual_address) (fun v =>
      fill_section_data ms' (<[k := v]> section_data)))
  end.

Definition generate_section2rva (file_content : string) : result (gmap Z Z) :=
  fill_section_data (findall O file_content) ∅.

(** ** Vftable symbol extractor *)

Fixpoint map_result {A B} (f : A -> result B) (l : list A) : result (list B) :=
  match l with
  | [] => Ok []
  | a :: l' => rbind (f a) (fun b => rbind (map_result f l') (fun bs => Ok (b :: bs)))
  end.

(** The variables of the loop of [get_types_with_vftable]. *)
Record vft_state : Type := VftState {
  out_types : gmap string (list pyval);
  max_width : Z;
  line1 : string
}.

(** [[ int(x) for x in addr.split(":") ]]. *)
Definition addr_fields (addr : string) : result (list Z) :=
  map_result Py.int10 (Py.split_colon addr).

(** The body of [if m1:], which gives the new [out_types] and [max_width]. *)
Definition vft_record (_in_section2rva : gmap Z Z) (st : vft_state)
    (type_name line2 : string) : result (gmap string (list pyval) * Z) :=
  match g_addr_regexp (Py.strip line2) with
  | Some addr =>
      rbind (addr_fields addr) (fun parts =>
      match parts with
      | [section; offset] =>
          match _in_section2rva !! section with
          | Some section_rva =>
              Ok (<[type_name := [PInt (section_rva + offset)]]> (out_types st),
                  if max_width st <? Py.len type_name then Py.len type_name
                  else max_width st)
          | None => Raise (KeyError section)
          end
      | _ => Raise ValueError
      end)
  | None => Ok (out_types st, max_width st)
  end.

(** One turn of [for line2 in file_object]. *)
Definition vft_step (_in_section2rva : gmap Z Z) (st : vft_state) (line2 : string)
  : result vft_state :=
  rbind
    match g_GDATA32_regexp (line1 st) with
    | Some (_, type_name) => vft_record _in_section2rva st type_name line2
    | None => Ok (out_types st, max_width st)
    end
    (fun '(types, width) => Ok (VftState types width (Py.strip line2))).

Fixpoint vft_loop (_in_section2rva : gmap Z Z) (st : vft_state) (lines : list string)
  : result vft_state :=
  match lines with
  | [] => Ok st
  | line2 :: lines' =>
      rbind (vft_step _in_section2rva st line2) (fun st' =>
      vft_loop _in_section2rva st' lines')
  end.

Definition vft_init : vft_state := VftState ∅ (-1) "".

(** [get_types_with_vftable], on the lines the file yields (each with its
    line feed). *)
Definition get_types_with_vftable (lines : list string) (_in_section2rva : gmap Z Z)
  : result (gmap string (list pyval) * Z) :=
  rbind (vft_loop _in_section2rva vft_init lines) (fun st =>
  Ok (out_types st, max_width st)).

(** ** Type record classifier and merger *)

(** The dictionaries that [fill_types_info] hands to the functions it
    calls, which update them in place. *)
Record store : Type := Store {
  fwrd : gmap Z Z;
  type_positions : gmap Z Z;
  types : gmap string (list pyval)
}.

Definition M (A : Type) : Type := store -> store * result A.

Definition ret {A} (a : A) : M A := fun st => (st, Ok a).
Definition raise {A} (e : exn) : M A := fun st => (st, Raise e).
Definition bind {A B} (m : M A) (k : A -> M B) : M B :=
  fun st =>
    match m st with
    | (st', Ok a) => k a st'
    | (st', Raise e) => (st', Raise e)
    end.
Definition lift {A} (r : result A) : M A := fun st => (st, r).
Definition get_types : M (gmap string (list pyval)) := fun st => (st, Ok (types st)).
Definition set_types (t : gmap string (list pyval)) : M unit :=
  fun st => (Store (fwrd st) (type_positions st) t, Ok tt).
Definition set_fwd (k v : Z) : M unit :=
  fun st => (Store (<[k := v]> (fwrd st)) (type_positions st) (types st), Ok tt).
Definition set_type_position (k v : Z) : M unit :=
  fun st => (Store (fwrd st) (<[k := v]> (type_positions st)) (types st), Ok tt).

Notation "'let!' x := m 'in' k" := (bind m (fun x => k))
  (at level 10, x name, m at level 100, k at level 200, only parsing).
Notation "'do!' m 'in' k" := (bind m (fun _ => k))
  (at level 10, m at level 100, k at level 200, only parsing).

(** [assert b]. *)
Definition assert (b : bool) : M unit := if b then ret tt else raise AssertionError.

(** [elem[0]]. *)
Definition first_item (elem : list pyval) : result pyval :=
  match elem with
  | x :: _ => Ok x
  | [] => Raise IndexError
  end.

(** [elem[-1] == sizeof], for a list that is not empty. *)
Definition last_item_is (elem : list pyval) (sizeof : Z) : bool :=
  bool_decide (last elem = Some (PInt sizeof)).

Definition process_class (_content : string) (_type_index : Z) : M unit :=
  match g_fwd_ref_regexp _content with
  | Some g =>
      let! fwd_type := lift (Py.int16 g) in
      set_fwd _type_index fwd_type
  | None =>
      match g_class_name_regexp _content with
      | Some type_name =>
          if g_scoped_regexp _content then
            let! _inout_types := get_types in
            match _inout_types !! type_name with
            | Some _ => set_types (delete type_name _inout_types)
            | None => ret tt
            end
          else if Py.contains "<unnamed-" type_name then ret tt
          else
            match g_unique_name_regexp _content with
            | Some unique_type_name =>
                match g_field_list_regexp _content with
                | Some g =>
                    let! field_list_index := lift (Py.int16 g) in
                    let! digits := match g_sizeof_regexp _content with
                              | Some d => ret d
                              | None => raise AttributeError
                              end in
                    let! sizeof := lift (Py.int10 digits) in
                    let! _inout_types := get_types in
                    let! rva := match _inout_types !! type_name with
                           | Some elem =>
                               let! rva := lift (first_item elem) in
                               do! assert ((Py.len_list elem =? 1) || last_item_is elem sizeof) in
                               ret rva
                           | None => ret (PInt 0)
                           end in
                    set_types (<[type_name := [rva; PInt _type_index; PInt field_list_index;
                                               PStr unique_type_name; PInt sizeof]]> _inout_types)
                | None => ret tt
                end
            | None => ret tt
            end
      | None => ret tt
      end
  end.

Definition process_fieldlist (_content : string) (_type_index : Z) : M unit := ret tt.

Definition in_list (x : string) (l : list string) : bool := existsb (String.eqb x) l.

Definition process_current_type (_content : string) (_pos : Z) : M unit :=
  match g_type_header_regexp _content with
  | None => ret tt
  | Some (type_idx, leaf_type_name) =>
      let! type_idx := lift (Py.int16 type_idx) in
      do! (if in_list leaf_type_name g_wanted_types
           then set_type_position type_idx _pos else ret tt) in
      if String.eqb leaf_type_name "LF_CLASS" || String.eqb leaf_type_name "LF_STRUCTURE"
      then process_class _content type_idx
      else if String.eqb leaf_type_name "LF_FIELDLIST"
      then process_fieldlist _content type_idx
      else ret tt
  end.

(** ** Type record stream reader *)

(** The variables of the loop of [fill_types_info]: the buffered record
    and its position, the dictionaries, and what [print_exc] has printed.
    [delivered] is not a variable of the source: it lists, in order, the
    arguments of the calls of [process_current_type]. *)
Record reader : Type := Reader {
  content : string;
  content_pos : Z;
  dicts : store;
  printed : list exn;
  delivered : list (string * Z)
}.

(** One turn of [while line:] for the line [line] read at position [pos]:
    the [try] block with its bare [except], which prints the exception and
    goes on. *)
Definition fill_step (r : reader) (pos_line : Z * string) : reader :=
  let '(pos, line) := pos_line in
  match g_type_header_regexp line with
  | Some _ =>
      match content r with
      | EmptyString => r
      | _ =>
          let log := (delivered r ++ [(content r, content_pos r)])%list in
          match process_current_type (content r) (content_pos r) (dicts r) with
          | (st', Ok _) => Reader line pos st' (printed r) log
          | (st', Raise e) =>
              Reader (content r) (content_pos r) st' (printed r ++ [e])%list log
          end
      end
  | None => Reader (content r ++ line) (content_pos r) (dicts r) (printed r) (delivered r)
  end.

Definition fill_init (_inout_types : gmap string (list pyval)) : reader :=
  Reader "" (-1) (Store ∅ ∅ _inout_types) [] [].

(** [fill_types_info], on the lines [readline] returns until the end of
    the file, each with the position [tell] gave before it was read. *)
Definition fill_types_info (lines : list (Z * string))
    (_inout_types : gmap string (list pyval)) : reader :=
  fold_left fill_step lines (fill_init _inout_types).

(** ** Catalog partitioner *)

Record partition : Type := Partition {
  detailed_types : gmap string (list pyval);
  virtual_detailed_types : gmap string (list pyval);
  unexpanded_types : gmap string (list pyval)
}.

(** [details[0] > 0]. *)
Definition first_positive (details : list pyval) : result bool :=
  match details with
  | PInt rva :: _ => Ok (0 <? rva)
  | PStr _ :: _ => Raise TypeError
  | [] => Raise IndexError
  end.

(** One turn of the loop over [types_with_vftable.items()]. *)
Definition partition_step (type_name : string) (details : list pyval)
    (acc : result partition) : result partition :=
  rbind acc (fun p =>
    if 1 <? Py.len_list details then
      rbind (first_positive details) (fun positive =>
        if positive
        then Ok (Partition (detailed_types p)
                           (<[type_name := details]> (virtual_detailed_types p))
                           (unexpanded_types p))
        else Ok (Partition (<[type_name := details]> (detailed_types p))
                           (virtual_detailed_types p)
                           (unexpanded_types p)))
    else if Py.len_list details =? 1 then
      Ok (Partition (detailed_types p) (virtual_detailed_types p)
                    (<[type_name := details]> (unexpanded_types p)))
    else Ok p).

Definition partition_types (types_with_vftable : gmap string (list pyval))
  : result partition :=
  map_fold partition_step (Ok (Partition ∅ ∅ ∅)) types_with_vftable.

(** ** The run of the core *)

(** The main block from the section dump to the three groups, with what
    the reader printed on the way. *)
Definition main (sections_file : string) (globals_file : list string)
    (types_file : list (Z * string)) : result (partition * list exn) :=
  rbind (generate_section2rva sections_file) (fun section2rva =>
  rbind (get_types_with_vftable globals_file section2rva)
    (fun '(types_with_vftable, max_name_width) =>
  let r := fill_types_info types_file types_with_vftable in
  rbind (partition_types (types (dicts r))) (fun parts =>
  Ok (parts, printed r)))).

(** ** Vocabulary of the properties *)

(** A run of decimal digits, its value, and whether [int] converts a run
    of that length. *)
Definition decimal (s : string) : Prop :=
  s <> "" /\ Py.all_chars is_digit s = true.

Definition decimal_value (s : string) : Z := Py.digits_value 10 0 s.

Definition convertible (s : string) : Prop :=
  (String.length s <= Py.int_max_str_digits)%nat.

(** [content] is a record the reader classifies as a class or a structure:
    its header line gives the index [type_index] and one of the two leaf
    kinds that [process_current_type] hands to [process_class]. *)
Definition class_record (content : string) (type_index : Z) : Prop :=
  exists hx leaf,
    g_type_header_regexp content = Some (hx, leaf) /\
    Py.int16 hx = Ok type_index /\
    (leaf = "LF_CLASS" \/ leaf = "LF_STRUCTURE").

(** [content] goes through every check of [process_class] and reaches the
    merge with these four parsed values. *)
Definition fully_parsed (content type_name unique_type_name : string)
    (field_list_index sizeof : Z) : Prop :=
  g_fwd_ref_regexp content = None /\
  g_class_name_regexp content = Some type_name /\
  g_scoped_regexp content = false /\
  Py.contains "<unnamed-" type_name = false /\
  g_unique_name_regexp content = Some unique_type_name /\
  (exists g, g_field_list_regexp content = Some g /\ Py.int16 g = Ok field_list_index) /\
  (exists d, g_sizeof_regexp content = Some d /\ Py.int10 d = Ok sizeof).

(** The two shapes of a catalog value: the one-field list of the symbol
    pass and the five-field list of the merge. *)
Inductive entry_shape : list pyval -> Prop :=
| shape_vftable_only rva : entry_shape [PInt rva]
| shape_resolved rva type_index field_list_index unique_type_name sizeof :
    entry_shape [PInt rva; PInt type_index; PInt field_list_index;
                 PStr unique_type_name; PInt sizeof].

(** The group an entry belongs to, by its length and its first field. *)
Inductive group : Type := Virtual | Other | Unexpanded.

Global Instance group_eq_dec : EqDecision group.
Proof. solve_decision. Defined.

Definition group_of (details : list pyval) : option group :=
  match details with
  | [PInt _] => Some Unexpanded
  | PInt rva :: _ :: _ => Some (if 0 <? rva then Virtual else Other)
  | _ => None
  end.

Definition in_group (p : partition) (g : group) : gmap string (list pyval) :=
  match g with
  | Virtual => virtual_detailed_types p
  | Other => detailed_types p
  | Unexpanded => unexpanded_types p
  end.

(** Every value of the catalog has one of the two shapes. *)
Definition catalog_shape (m : gmap string (list pyval)) : Prop :=
  map_Forall (fun _ details => entry_shape details) m.

(** The two groups of a section match: decimal digits and hexadecimal
    digits, neither empty. *)
Definition section_groups (m : string * string) : Prop :=
  (m.1 <> "" /\ Py.all_chars is_digit m.1 = true) /\
  (m.2 <> "" /\ Py.all_chars is_hex m.2 = true).

(** What the loop keeps true of its two results. *)
Definition width_of_names (cat : gmap string (list pyval)) (w : Z) : Prop :=
  (forall name, is_Some (cat !! name) -> Py.len name <= w) /\
  ((cat = ∅ /\ w = -1) \/ exists name, is_Some (cat !! name) /\ Py.len name = w).

(** The entries of the symbol pass: one integer, not negative. *)
Definition vftable_entries (cat : gmap string (list pyval)) : Prop :=
  forall name details, cat !! name = Some details ->
                       exists rva, details = [PInt rva] /\ 0 <= rva.

(** The ways [process_class] can end on the record [content] with index
    [idx], started in the store [st]. *)
Inductive class_outcome (content : string) (idx : Z) (st : store)
  : store * result unit -> Prop :=
| outcome_forward g ref :
    g_fwd_ref_regexp content = Some g -> Py.int16 g = Ok ref ->
    class_outcome content idx st
      (Store (<[idx := ref]> (fwrd st)) (type_positions st) (types st), Ok tt)
| outcome_skipped :
    class_outcome content idx st (st, Ok tt)
| outcome_scoped name elem :
    g_fwd_ref_regexp content = None ->
    g_class_name_regexp content = Some name ->
    g_scoped_regexp content = true ->
    types st !! name = Some elem ->
    class_outcome content idx st
      (Store (fwrd st) (type_positions st) (delete name (types st)), Ok tt)
| outcome_unreadable e :
    e = ValueError \/ e = AttributeError ->
    class_outcome content idx st (st, Raise e)
| outcome_new name unique fl sz :
    fully_parsed content name unique fl sz ->
    types st !! name = None ->
    class_outcome content idx st
      (Store (fwrd st) (type_positions st)
         (<[name := [PInt 0; PInt idx; PInt fl; PStr unique; PInt sz]]> (types st)),
       Ok tt)
| outcome_merged name unique fl sz rva tl :
    fully_parsed content name unique fl sz ->
    types st !! name = Some (rva :: tl) ->
    (Py.len_list (rva :: tl) =? 1) || last_item_is (rva :: tl) sz = true ->
    class_outcome content idx st
      (Store (fwrd st) (type_positions st)
         (<[name := [rva; PInt idx; PInt fl; PStr unique; PInt sz]]> (types st)),
       Ok tt)
| outcome_conflict name unique fl sz rva tl :
    fully_parsed content name unique fl sz ->
    types st !! name = Some (rva :: tl) ->
    (Py.len_list (rva :: tl) =? 1) || last_item_is (rva :: tl) sz = false ->
    class_outcome content idx st (st, Raise AssertionError)
| outcome_empty_entry name unique fl sz :
    fully_parsed content name unique fl sz ->
    types st !! name = Some [] ->
    class_outcome content idx st (st, Raise IndexError).

(** Where the entries of the catalog [m] come from, [cat0] being the
    catalog the type pass started with: an entry is the one [cat0] has for
    the name, or a five-field list whose first field is [0] or the first
    field of the entry [cat0] has for the name. *)
Definition rva_source (cat0 m : gmap string (list pyval)) : Prop :=
  forall name e, m !! name = Some e ->
    cat0 !! name = Some e \/
    (length e = 5%nat /\
     (head e = Some (PInt 0) \/ exists e0, cat0 !! name = Some e0 /\ head e = head e0)).

(** The exceptions the type pass prints. *)
Definition record_error (e : exn) : Prop :=
  e = ValueError \/ e = AttributeError \/ e = AssertionError.

(** The text of some lines put end to end. *)
Definition join (body : list string) : string := fold_right append "" body.

(** [c], buffered at position [p], is made of lines of the dump [dump]:
    lines that are not header lines, after the header line read at [p] or,
    with the initial position, after nothing. *)
Definition buffer_of (dump : list (Z * string)) (c : string) (p : Z) : Prop :=
  exists body,
    Forall (fun l => g_type_header_regexp l = None /\ exists q, In (q, l) dump) body /\
    ((p = -1 /\ c = join body) \/
     (exists h, In (p, h) dump /\ is_Some (g_type_header_regexp h) /\
                c = h ++ join body)).

(** The two ways the symbol pass over [lines] can be aborted: the lookup
    of a section that the table does not hold, and the conversion of an
    address field that is too long for [int]. *)
Definition symbol_pass_error (tbl : gmap Z Z) (lines : list string) (e : exn) : Prop :=
  exists line sec off,
    In line lines /\
    g_addr_regexp (Py.strip line) = Some (sec ++ ":" ++ off) /\
    decimal sec /\ decimal off /\
    ((convertible sec /\ convertible off /\
      tbl !! decimal_value sec = None /\ e = KeyError (decimal_value sec)) \/
     ((~ convertible sec \/ ~ convertible off) /\ e = ValueError)).

(** ** Sample dumps

    Pieces of dumps in the format of [llvm-pdbutil], used to run the
    functions above on concrete input. *)

Module Samples.

Definition line (s : string) : string := s ++ nl.

(** The positions [tell] gives line by line in a file of one-byte
    characters that starts at [pos]. *)
Fixpoint with_positions (pos : Z) (lines : list string) : list (Z * string) :=
  match lines with
  | [] => []
  | l :: ls => (pos, l) :: with_positions (pos + Py.len l) ls
  end.

(** *** Section headers *)

Definition section_1 : string :=
  line "SECTION HEADER #1" ++ line "   .text name" ++
  line "    5C3A virtual size" ++ line "    1000 virtual address".

Definition section_1_no_address : string :=
  line "SECTION HEADER #1" ++ line "   .text name" ++
  line "    5C3A virtual size".

Definition section_2 : string :=
  line "SECTION HEADER #2" ++ line "  .rdata name" ++
  line "    2000 virtual address".

(** *** Global symbols *)

Definition foo_symbol : string :=
  line "     268 | S_GDATA32 [size = 36] `Foo::`vftable'`".
Definition bar_symbol : string :=
  line "     304 | S_GDATA32 [size = 36] `Bar::`vftable'`".

Definition addr_1_32 : string :=
  line "           type = 0x1003 (const void*), addr = 1:32".
Definition addr_1_0x20 : string :=
  line "           type = 0x1003 (const void*), addr = 1:0x20".
Definition addr_1_64 : string :=
  line "           type = 0x1003 (const void*), addr = 0001:00000064".
Definition addr_2_8 : string :=
  line "           type = 0x1003 (const void*), addr = 2:8".
Definition no_addr : string :=
  line "           type = 0x1003 (const void*)".

(** A run of [n] characters [c], and address lines with an offset of 4301
    digits. *)
Fixpoint run (n : nat) (c : ascii) : string :=
  match n with
  | O => ""
  | S n' => String c (run n' c)
  end.

Definition addr_1_long : string :=
  line ("           type = 0x1003 (const void*), addr = 1:" ++ run 4301 "7").
Definition addr_2_long : string :=
  line ("           type = 0x1003 (const void*), addr = 2:" ++ run 4301 "7").

(** *** Type records *)

Definition preamble : list string :=
  [line "                     Types (TPI Stream)";
   line "============================================================";
   line "  Showing 3 records"].

Definition foo_record : list string :=
  [line "  0x1000 | LF_STRUCTURE [size = 40] `Foo`";
   line "           unique name: `.?AUFoo@@`";
   line "           vtable: <no type>, base list: <no type>, field list: 0x5";
   line "           options: has unique name, sizeof 16"].

(** A later definition of [Foo] with the same size. *)
Definition foo_record_again : list string :=
  [line "  0x1004 | LF_STRUCTURE [size = 40] `Foo`";
   line "           unique name: `.?AUFoo@@`";
   line "           vtable: <no type>, base list: <no type>, field list: 0x7";
   line "           options: has unique name, sizeof 16"].

(** A later definition of [Foo] with another size. *)
Definition foo_record_24 : list string :=
  [line "  0x1002 | LF_STRUCTURE [size = 40] `Foo`";
   line "           unique name: `.?AUFoo@@`";
   line "           vtable: <no type>, base list: <no type>, field list: 0x6";
   line "           options: has unique name, sizeof 24"].

Definition foo_record_scoped : list string :=
  [line "  0x1000 | LF_STRUCTURE [size = 40] `Foo`";
   line "           unique name: `.?AUFoo@@`";
   line "           vtable: <no type>, base list: <no type>, field list: 0x5";
   line "           options: has unique name | scoped, sizeof 16"].

(** A forward declaration of a scoped type. *)
Definition foo_record_forward_scoped : list string :=
  [line "  0x1000 | LF_STRUCTURE [size = 40] `Foo`";
   line "           unique name: `.?AUFoo@@`";
   line "           vtable: <no type>, base list: <no type>, field list: <no type>";
   line "           options: forward ref (-> 0x1005) | has unique name | scoped, sizeof 0"].

Definition pointer_record : list string :=
  [line "  0x1001 | LF_POINTER [size = 12]";
   line "           referent = 0x1000, mode = pointer, opts = None, kind = ptr64"].

Definition text (lines : list string) : string := fold_right append "" lines.

Definition foo_vftable_only : gmap string (list pyval) := {[ "Foo" := [PInt 4128] ]}.

Definition foo_resolved : gmap string (list pyval) :=
  {[ "Foo" := [PInt 4128; PInt 4096; PInt 5; PStr ".?AUFoo@@"; PInt 16] ]}.

End Samples.

(** * Properties *)

(** ** Text and parsing lemmas *)

Ltac each_char c :=
  destruct c as [[] [] [] [] [] [] [] []]; vm_compute; try discriminate; try reflexivity.

Section Matching.

Context {A : Type}.
Implicit Types (m : string -> option A) (s t : string).

(** A match of [search] is a match of the pattern at some position. *)
Lemma search_found m s r : search m s = Some r -> exists t, m t = Some r.
Proof.
  induction s as [|c s IH]; simpl.
  - destruct (m "") eqn:E; [intros [= <-]; eauto | discriminate].
  - destruct (m (String c s)) eqn:E; [intros [= <-]; eauto | auto].
Qed.

Lemma search_here m s r : m s = Some r -> search m s = Some r.
Proof. intros H. destruct s; simpl; now rewrite H. Qed.

End Matching.

Lemma many_run cls s r t :
  many cls s = (r, t) -> Py.all_chars cls r = true /\ s = r ++ t.
Proof.
  revert r t. induction s as [|c s IH]; simpl; intros r t.
  - intros [= <- <-]. auto.
  - destruct (cls c) eqn:Ec.
    + destruct (many cls s) as [r' t'] eqn:E. intros [= <- <-].
      destruct (IH _ _ eq_refl) as [Hr ->]. simpl. rewrite Ec, Hr. auto.
    + intros [= <- <-]. auto.
Qed.

Lemma many1_run cls s r t :
  many1 cls s = Some (r, t) ->
  r <> "" /\ Py.all_chars cls r = true /\ s = r ++ t.
Proof.
  unfold many1. destruct (many cls s) as [r' t'] eqn:E.
  destruct r' as [|c r']; [discriminate|]. intros [= <- <-].
  destruct (many_run _ _ _ _ E). repeat split; auto.
Qed.

Lemma is_digit_not_colon c : is_digit c = true -> Ascii.eqb c ":" = false.
Proof. each_char c. Qed.

Lemma is_digit_not_sign c :
  is_digit c = true -> c <> "-"%char /\ c <> "+"%char.
Proof. each_char c; intros _; split; discriminate. Qed.

Lemma is_digit_value c : is_digit c = true -> 0 <= Py.digit_value c <= 9.
Proof. each_char c; intros _; split; discriminate. Qed.

Lemma is_hex_value c : is_hex c = true -> 0 <= Py.digit_value c <= 15.
Proof. each_char c; intros _; split; discriminate. Qed.

Lemma digits_value_nonneg base cls (Hb : 0 <= base)
    (Hcls : forall c, cls c = true -> 0 <= Py.digit_value c) s :
  forall acc, 0 <= acc -> Py.all_chars cls s = true -> 0 <= Py.digits_value base acc s.
Proof.
  induction s as [|c s IH]; simpl; intros acc Hacc Hs; [assumption|].
  apply andb_prop in Hs as [Hc Hs]. apply IH; [|assumption].
  specialize (Hcls c Hc). nia.
Qed.

Lemma split_colon_digits_only b :
  Py.all_chars is_digit b = true -> Py.split_colon b = [b].
Proof.
  induction b as [|c b IH]; simpl; [reflexivity|].
  intros H. apply andb_prop in H as [Hc Hb].
  rewrite (is_digit_not_colon c Hc), (IH Hb). reflexivity.
Qed.

Lemma split_colon_pair a b :
  Py.all_chars is_digit a = true -> Py.all_chars is_digit b = true ->
  Py.split_colon (a ++ ":" ++ b) = [a; b].
Proof.
  intros Ha Hb. change (":" ++ b) with (String ":" b).
  induction a as [|c a IH]; simpl.
  - now rewrite (split_colon_digits_only b Hb).
  - simpl in Ha. apply andb_prop in Ha as [Hc Ha].
    rewrite (is_digit_not_colon c Hc). simpl in IH. now rewrite (IH Ha).
Qed.

Lemma strip_sign_digit c a :
  is_digit c = true -> Py.strip_sign (String c a) = (false, String c a).
Proof.
  intros Hc. destruct (is_digit_not_sign c Hc) as [Hm Hp].
  unfold Py.strip_sign.
  destruct c as [[] [] [] [] [] [] [] []]; try reflexivity; congruence.
Qed.

Lemma decimal_value_nonneg a : decimal a -> 0 <= decimal_value a.
Proof.
  intros [_ Ha]. apply (digits_value_nonneg 10 is_digit); try lia; [|assumption].
  intros c Hc. apply is_digit_value in Hc. lia.
Qed.

(** [int] on a run of decimal digits: its value when the run is short
    enough, a [ValueError] when it is not. *)
Lemma int10_digits a :
  decimal a -> convertible a -> Py.int10 a = Ok (decimal_value a).
Proof.
  intros [Hne Ha] Hlen. destruct a as [|c a]; [congruence|].
  pose proof Ha as Ha'. simpl in Ha'. apply andb_prop in Ha' as [Hc _].
  unfold Py.int10. rewrite (strip_sign_digit c a Hc).
  destruct (Nat.ltb_spec Py.int_max_str_digits (String.length (String c a)));
    [unfold convertible in Hlen; lia|].
  unfold Py.unsigned_of_digits. rewrite Ha. reflexivity.
Qed.

Lemma int10_too_long a :
  decimal a -> ~ convertible a -> Py.int10 a = Raise ValueError.
Proof.
  intros [Hne Ha] Hlen. destruct a as [|c a]; [congruence|].
  pose proof Ha as Ha'. simpl in Ha'. apply andb_prop in Ha' as [Hc _].
  unfold Py.int10. rewrite (strip_sign_digit c a Hc).
  destruct (Nat.ltb_spec Py.int_max_str_digits (String.length (String c a)));
    [reflexivity | unfold convertible in Hlen; lia].
Qed.

Lemma convertible_dec a : {convertible a} + {~ convertible a}.
Proof. unfold convertible. apply le_dec. Qed.

Lemma int16_prefixed h :
  h <> "" -> Py.all_chars is_hex h = true ->
  Py.int16 ("0x" ++ h) = Ok (Py.digits_value 16 0 h) /\ 0 <= Py.digits_value 16 0 h.
Proof.
  intros Hne Hh. split.
  - destruct h as [|c h]; [congruence|].
    change ("0x" ++ String c h) with (String "0" (String "x" (String c h))).
    unfold Py.int16. cbn -[Py.all_chars Py.digits_value]. now rewrite Hh.
  - apply (digits_value_nonneg 16 is_hex); try lia; [|assumption].
    intros c Hc. apply is_hex_value in Hc. lia.
Qed.

(** Opens the chain of matches a pattern is made of. *)
Ltac open_pattern H :=
  repeat match type of H with
         | match ?e with _ => _ end = Some _ =>
             let E := fresh "E" in destruct e eqn:E; try discriminate H
         end.

(** The group of an address match is two runs of decimal digits around a
    colon. *)
Lemma addr_match_digits s addr :
  g_addr_regexp s = Some addr ->
  exists sec off, addr = sec ++ ":" ++ off /\ decimal sec /\ decimal off.
Proof.
  intros H. apply search_found in H as [t H]. unfold addr_here in H.
  open_pattern H. injection H as <-.
  repeat match goal with
         | E : many1 _ _ = Some _ |- _ => apply many1_run in E as (? & ? & ?)
         end.
  unfold decimal. eauto 10.
Qed.

(** The two fields of such a group: both values when both runs are short
    enough for [int], a [ValueError] when one is not. *)
Lemma addr_fields_ok sec off :
  decimal sec -> decimal off -> convertible sec -> convertible off ->
  addr_fields (sec ++ ":" ++ off) = Ok [decimal_value sec; decimal_value off].
Proof.
  intros Hs Ho Hcs Hco. unfold addr_fields.
  rewrite (split_colon_pair sec off) by (apply Hs || apply Ho).
  simpl. rewrite (int10_digits sec Hs Hcs), (int10_digits off Ho Hco). reflexivity.
Qed.

Lemma addr_fields_too_long sec off :
  decimal sec -> decimal off -> ~ convertible sec \/ ~ convertible off ->
  addr_fields (sec ++ ":" ++ off) = Raise ValueError.
Proof.
  intros Hs Ho Hlong. unfold addr_fields.
  rewrite (split_colon_pair sec off) by (apply Hs || apply Ho). simpl.
  destruct (convertible_dec sec) as [Hcs|Hcs].
  - rewrite (int10_digits sec Hs Hcs). simpl.
    destruct Hlong as [?|Hco]; [contradiction|].
    now rewrite (int10_too_long off Ho Hco).
  - now rewrite (int10_too_long sec Hs Hcs).
Qed.

Lemma addr_fields_inv sec off parts :
  decimal sec -> decimal off ->
  addr_fields (sec ++ ":" ++ off) = Ok parts ->
  convertible sec /\ convertible off /\ parts = [decimal_value sec; decimal_value off].
Proof.
  intros Hs Ho H.
  destruct (convertible_dec sec) as [Hcs|Hcs], (convertible_dec off) as [Hco|Hco];
    try (rewrite addr_fields_too_long in H by auto; discriminate).
  rewrite addr_fields_ok in H by assumption. injection H as <-. auto.
Qed.

(** A text has one reading as two runs of digits around a colon. *)
Lemma addr_digits_unique a b a' b' :
  decimal a -> decimal b -> decimal a' -> decimal b' ->
  a ++ ":" ++ b = a' ++ ":" ++ b' -> a = a' /\ b = b'.
Proof.
  intros [_ Ha] [_ Hb] [_ Ha'] [_ Hb'] H.
  apply (f_equal Py.split_colon) in H.
  rewrite !split_colon_pair in H by assumption. now injection H.
Qed.

(** The index group of a header match always converts. *)
Lemma type_header_index s hx leaf :
  g_type_header_regexp s = Some (hx, leaf) ->
  exists idx, Py.int16 hx = Ok idx /\ 0 <= idx.
Proof.
  intros H. unfold g_type_header_regexp in H.
  open_pattern H. injection H as <- <-.
  repeat match goal with
         | E : many1 _ _ = Some _ |- _ => apply many1_run in E as (? & ? & ?)
         end.
  match goal with
  | Hh : Py.all_chars is_hex ?h = true |- _ =>
      destruct (int16_prefixed h ltac:(assumption) Hh) as [Eh ?]; eauto
  end.
Qed.

(** ** The vftable symbol extractor *)

Lemma rbind_ok {A B} (r : result A) (k : A -> result B) b :
  rbind r k = Ok b -> exists a, r = Ok a /\ k a = Ok b.
Proof. destruct r; simpl; [eauto | discriminate]. Qed.

Lemma vft_loop_app tbl st l1 l2 :
  vft_loop tbl st (l1 ++ l2)%list =
  rbind (vft_loop tbl st l1) (fun st' => vft_loop tbl st' l2).
Proof.
  revert st. induction l1 as [|l l1 IH]; intros st; simpl; [reflexivity|].
  destruct (vft_step tbl st l); simpl; auto.
Qed.

Lemma vft_step_line1 tbl st line2 st' :
  vft_step tbl st line2 = Ok st' -> line1 st' = Py.strip line2.
Proof.
  unfold vft_step. intros H. apply rbind_ok in H as ([t w] & _ & H).
  now injection H as <-.
Qed.

(** After a pass over [pre ++ [l]], [line1] is the stripped [l]. *)
Lemma vft_loop_last tbl st pre l st' :
  vft_loop tbl st (pre ++ [l])%list = Ok st' -> line1 st' = Py.strip l.
Proof.
  rewrite vft_loop_app. intros H. apply rbind_ok in H as (st1 & _ & H).
  simpl in H. apply rbind_ok in H as (st2 & H & E). injection E as <-.
  eapply vft_step_line1; eauto.
Qed.

(** [get_types_with_vftable] gives the dictionary and the width the loop
    ends with. *)
Lemma get_types_with_vftable_ok lines tbl cat w :
  get_types_with_vftable lines tbl = Ok (cat, w) <->
  exists st, vft_loop tbl vft_init lines = Ok st /\ out_types st = cat /\ max_width st = w.
Proof.
  unfold get_types_with_vftable. split.
  - intros H. apply rbind_ok in H as (st & H & E). injection E as <- <-. eauto.
  - intros (st & -> & <- & <-). reflexivity.
Qed.

(** C5, counterexample.  The symbol line of [Foo] followed by an address
    line whose section is in the table and whose offset is a run of 4301
    decimal digits: both patterns match, and the pass records nothing, for
    [int] refuses a run of that length and the pass ends in
    [ValueError]. *)
Lemma vftable_pair_with_long_offset :
  g_GDATA32_regexp (Py.strip Samples.foo_symbol) = Some ("268", "Foo") /\
  g_addr_regexp (Py.strip Samples.addr_1_long) = Some ("1:" ++ Samples.run 4301 "7") /\
  ({[1 := 4096]} : gmap Z Z) !! 1 = Some 4096 /\
  get_types_with_vftable [Samples.foo_symbol; Samples.addr_1_long] {[1 := 4096]} =
    Raise ValueError.
Proof. repeat split; vm_compute; reflexivity. Qed.

(** C5, amended.  When a line matching the vftable symbol pattern is
    followed by a line holding an address field, the field is a run of
    decimal digits [sec], a colon and a run of decimal digits [off].  When
    [int] converts both runs (at most 4300 digits each) and the value of
    [sec] is in the table with base [section_rva], the extractor sets the
    catalog entry of the type name to the one-field list of [section_rva]
    plus the value of [off], an exact sum of integers.  The entry replaces
    whatever the name had before, so of several pairs for one name the
    last one is kept, and no other entry changes. *)
Theorem vftable_pair_records_rva
    (tbl : gmap Z Z) (pre : list string) (l1 line2 : string)
    (cat : gmap string (list pyval)) (w : Z) (rec name addr : string) :
  get_types_with_vftable (pre ++ [l1])%list tbl = Ok (cat, w) ->
  g_GDATA32_regexp (Py.strip l1) = Some (rec, name) ->
  g_addr_regexp (Py.strip line2) = Some addr ->
  exists sec off,
    addr = sec ++ ":" ++ off /\ decimal sec /\ decimal off /\
    forall section_rva,
      convertible sec -> convertible off ->
      tbl !! decimal_value sec = Some section_rva ->
      get_types_with_vftable (pre ++ [l1; line2])%list tbl =
        Ok (<[name := [PInt (section_rva + decimal_value off)]]> cat,
            Z.max w (Py.len name)) /\
      <[name := [PInt (section_rva + decimal_value off)]]> cat !! name =
        Some [PInt (section_rva + decimal_value off)] /\
      forall other, other <> name ->
        <[name := [PInt (section_rva + decimal_value off)]]> cat !! other = cat !! other.
Proof.
  intros Hpre Hsym Haddr.
  apply get_types_with_vftable_ok in Hpre as (st & Hloop & <- & <-).
  pose proof (vft_loop_last _ _ _ _ _ Hloop) as Hl1.
  destruct (addr_match_digits _ _ Haddr) as (sec & off & -> & Hs & Ho).
  exists sec, off. split; [reflexivity|]. split; [assumption|]. split; [assumption|].
  intros section_rva Hcs Hco Htbl. split; [|split].
  - apply get_types_with_vftable_ok.
    change (pre ++ [l1; line2])%list with (pre ++ [l1] ++ [line2])%list.
    rewrite app_assoc, vft_loop_app, Hloop. simpl.
    unfold vft_step, vft_record.
    rewrite Hl1, Hsym, Haddr, (addr_fields_ok sec off Hs Ho Hcs Hco). simpl.
    rewrite Htbl. simpl. eexists. split; [reflexivity|]. simpl. split; [reflexivity|].
    destruct (Z.ltb_spec (max_width st) (Py.len name)); lia.
  - apply lookup_insert_eq.
  - intros other Hne. now apply lookup_insert_ne.
Qed.

(** Two pairs for [Foo] in a row, the first at [1:32] and the second at
    [0001:00000064]: the catalog ends with the second address,
    [0x1000 + 64]. *)
Lemma vftable_pair_records_rva_witness :
  get_types_with_vftable
    ([Samples.foo_symbol; Samples.addr_1_32] ++
     [Samples.foo_symbol; Samples.addr_1_64])%list {[1 := 4096]} =
    Ok (<["Foo" := [PInt (4096 + 64)]]> Samples.foo_vftable_only, Z.max 3 (Py.len "Foo")).
Proof.
  assert (Hpre : get_types_with_vftable
                   ([Samples.foo_symbol; Samples.addr_1_32] ++ [Samples.foo_symbol])%list
                   {[1 := 4096]} = Ok (Samples.foo_vftable_only, 3))
    by (vm_compute; reflexivity).
  assert (Hsym : g_GDATA32_regexp (Py.strip Samples.foo_symbol) = Some ("268", "Foo"))
    by (vm_compute; reflexivity).
  assert (Haddr : g_addr_regexp (Py.strip Samples.addr_1_64) = Some "0001:00000064")
    by (vm_compute; reflexivity).
  destruct (vftable_pair_records_rva _ _ _ _ _ _ _ _ _ Hpre Hsym Haddr)
    as (sec & off & Heq & Hs & Ho & H).
  assert (Hd1 : decimal "0001") by (split; [discriminate | reflexivity]).
  assert (Hd2 : decimal "00000064") by (split; [discriminate | reflexivity]).
  destruct (addr_digits_unique "0001" "00000064" sec off Hd1 Hd2 Hs Ho Heq) as [<- <-].
  assert (Hc1 : convertible "0001")
    by (unfold convertible, Py.int_max_str_digits; simpl; lia).
  assert (Hc2 : convertible "00000064")
    by (unfold convertible, Py.int_max_str_digits; simpl; lia).
  exact (proj1 (H 4096 Hc1 Hc2 eq_refl)).
Defined.

(** The run of the two pairs: the entry of [Foo] is the one of the second
    pair, [0x1000 + 64]. *)
Example vftable_pair_run :
  get_types_with_vftable
    [Samples.foo_symbol; Samples.addr_1_32; Samples.foo_symbol; Samples.addr_1_64]
    {[1 := 4096]} = Ok ({[ "Foo" := [PInt 4160] ]}, 3).
Proof. vm_compute. reflexivity. Qed.

(** A raise in the middle of the pass is the result of the pass. *)
Lemma vft_loop_raise tbl st pre line2 rest st1 e :
  vft_loop tbl st pre = Ok st1 ->
  vft_step tbl st1 line2 = Raise e ->
  vft_loop tbl st (pre ++ line2 :: rest)%list = Raise e.
Proof.
  intros Hpre Hstep. rewrite vft_loop_app, Hpre. simpl. now rewrite Hstep.
Qed.

(** C10, counterexample.  The symbol line of [Foo] followed by an address
    line that names section 2, which the table does not hold, with an
    offset of 4301 decimal digits: the pass does not reach the lookup of
    the section, [int] refuses the offset and the pass ends in
    [ValueError], not in [KeyError]. *)
Lemma unknown_section_with_long_offset :
  g_GDATA32_regexp (Py.strip Samples.foo_symbol) = Some ("268", "Foo") /\
  g_addr_regexp (Py.strip Samples.addr_2_long) = Some ("2:" ++ Samples.run 4301 "7") /\
  ({[1 := 4096]} : gmap Z Z) !! 2 = None /\
  get_types_with_vftable [Samples.foo_symbol; Samples.addr_2_long] {[1 := 4096]} =
    Raise ValueError.
Proof. repeat split; vm_compute; reflexivity. Qed.

(** C10, amended.  When a line matching the vftable symbol pattern is
    followed by a line holding an address field, the field is a run of
    decimal digits [sec], a colon and a run of decimal digits [off].  When
    [int] converts both runs (at most 4300 digits each) and the value of
    [sec] is not in the section table, the lookup raises [KeyError] with
    that value, nothing catches it, and it is the result of the whole pass
    whatever lines follow.  When one of the runs is longer, the pass ends
    in [ValueError] in the same way.  Had the second line held no address
    field, the pair would have been skipped instead: the pass goes on with
    the catalog as it was. *)
Theorem vftable_unknown_section_aborts
    (tbl : gmap Z Z) (pre : list string) (l1 line2 : string)
    (cat : gmap string (list pyval)) (w : Z) (rec name addr : string) :
  get_types_with_vftable (pre ++ [l1])%list tbl = Ok (cat, w) ->
  g_GDATA32_regexp (Py.strip l1) = Some (rec, name) ->
  g_addr_regexp (Py.strip line2) = Some addr ->
  (exists sec off,
     addr = sec ++ ":" ++ off /\ decimal sec /\ decimal off /\
     (convertible sec -> convertible off ->
      tbl !! decimal_value sec = None ->
      forall rest,
        get_types_with_vftable (pre ++ l1 :: line2 :: rest)%list tbl =
          Raise (KeyError (decimal_value sec))) /\
     (~ convertible sec \/ ~ convertible off ->
      forall rest,
        get_types_with_vftable (pre ++ l1 :: line2 :: rest)%list tbl =
          Raise ValueError)) /\
  (forall other_line, g_addr_regexp (Py.strip other_line) = None ->
     get_types_with_vftable (pre ++ [l1; other_line])%list tbl = Ok (cat, w)).
Proof.
  intros Hpre Hsym Haddr.
  apply get_types_with_vftable_ok in Hpre as (st & Hloop & <- & <-).
  pose proof (vft_loop_last _ _ _ _ _ Hloop) as Hl1.
  assert (Hraise : forall e rest,
             vft_step tbl st line2 = Raise e ->
             get_types_with_vftable (pre ++ l1 :: line2 :: rest)%list tbl = Raise e).
  { intros e rest He. unfold get_types_with_vftable.
    change (pre ++ l1 :: line2 :: rest)%list with (pre ++ [l1] ++ line2 :: rest)%list.
    rewrite app_assoc.
    now rewrite (vft_loop_raise tbl vft_init (pre ++ [l1]) line2 rest st e). }
  split.
  - destruct (addr_match_digits _ _ Haddr) as (sec & off & -> & Hs & Ho).
    exists sec, off. split; [reflexivity|]. split; [assumption|]. split; [assumption|].
    split.
    + intros Hcs Hco Hnone rest. apply Hraise.
      unfold vft_step, vft_record.
      rewrite Hl1, Hsym, Haddr, (addr_fields_ok sec off Hs Ho Hcs Hco). simpl.
      now rewrite Hnone.
    + intros Hlong rest. apply Hraise.
      unfold vft_step, vft_record.
      now rewrite Hl1, Hsym, Haddr, (addr_fields_too_long sec off Hs Ho Hlong).
  - intros other_line Hnone. apply get_types_with_vftable_ok.
    change (pre ++ [l1; other_line])%list with (pre ++ [l1] ++ [other_line])%list.
    rewrite app_assoc, vft_loop_app, Hloop. simpl.
    unfold vft_step, vft_record. rewrite Hl1, Hsym, Hnone. simpl. eauto.
Qed.

(** The symbol of [Foo] with the address [2:8], section 2 not being in the
    table [{1: 0x1000}], after the symbol of [Bar] with no address line
    and before a pair that would have matched: the pass ends in
    [KeyError 2]. *)
Lemma vftable_unknown_section_aborts_witness :
  get_types_with_vftable
    ([Samples.bar_symbol; Samples.no_addr] ++
     Samples.foo_symbol :: Samples.addr_2_8 ::
     [Samples.bar_symbol; Samples.addr_1_32])%list {[1 := 4096]} =
    Raise (KeyError 2).
Proof.
  assert (Hpre : get_types_with_vftable
                   ([Samples.bar_symbol; Samples.no_addr] ++ [Samples.foo_symbol])%list
                   {[1 := 4096]} = Ok (∅, -1))
    by (vm_compute; reflexivity).
  assert (Hsym : g_GDATA32_regexp (Py.strip Samples.foo_symbol) = Some ("268", "Foo"))
    by (vm_compute; reflexivity).
  assert (Haddr : g_addr_regexp (Py.strip Samples.addr_2_8) = Some "2:8")
    by (vm_compute; reflexivity).
  destruct (vftable_unknown_section_aborts _ _ _ _ _ _ _ _ _ Hpre Hsym Haddr)
    as [(sec & off & Heq & Hs & Ho & Hkey & _) _].
  assert (Hd1 : decimal "2") by (split; [discriminate | reflexivity]).
  assert (Hd2 : decimal "8") by (split; [discriminate | reflexivity]).
  destruct (addr_digits_unique "2" "8" sec off Hd1 Hd2 Hs Ho Heq) as [<- <-].
  assert (Hc1 : convertible "2")
    by (unfold convertible, Py.int_max_str_digits; simpl; lia).
  assert (Hc2 : convertible "8")
    by (unfold convertible, Py.int_max_str_digits; simpl; lia).
  exact (Hkey Hc1 Hc2 eq_refl [Samples.bar_symbol; Samples.addr_1_32]).
Defined.

(** The same input run: the pass ends in [KeyError 2]. *)
Example vftable_unknown_section_run :
  get_types_with_vftable
    [Samples.bar_symbol; Samples.no_addr; Samples.foo_symbol; Samples.addr_2_8;
     Samples.bar_symbol; Samples.addr_1_32] {[1 := 4096]} = Raise (KeyError 2).
Proof. vm_compute. reflexivity. Qed.

(** C4. The section pattern lets its lazy [.*?] run past the next section
    header.  A block without a virtual address field followed by a block
    with one gives a single entry: the index of the first block mapped to
    the address of the second, and nothing for the second.  With the field
    present in both blocks each index maps to its own address. *)
Theorem section_without_address_takes_next :
  generate_section2rva (Samples.section_1_no_address ++ Samples.section_2) =
    Ok {[1 := 8192]} /\
  generate_section2rva (Samples.section_1 ++ Samples.section_2) =
    Ok {[1 := 4096; 2 := 8192]}.
Proof. split; vm_compute; reflexivity. Qed.

(** ** The classifier and merger *)

Ltac run_monad :=
  unfold bind, lift, ret, raise, get_types, set_types, set_fwd,
    set_type_position, assert; simpl.

(** A class or structure record goes to [process_class], its position
    noted first. *)
Lemma process_current_type_class content idx pos st :
  class_record content idx ->
  process_current_type content pos st =
  process_class content idx
    (Store (fwrd st) (<[idx := pos]> (type_positions st)) (types st)).
Proof.
  intros (hx & leaf & Hh & Hi & Hl). unfold process_current_type.
  rewrite Hh. unfold bind at 1, lift. rewrite Hi.
  destruct Hl as [-> | ->]; reflexivity.
Qed.

(** C7. A class or structure record that holds a forward reference marker
    with an index that converts sets [fwrd[this index]] to that index and
    returns: the catalog is the one it was handed. *)
Theorem forward_declaration_leaves_catalog
    (content : string) (idx pos : Z) (st : store) (g : string) (ref : Z) :
  class_record content idx ->
  g_fwd_ref_regexp content = Some g ->
  Py.int16 g = Ok ref ->
  process_current_type content pos st =
    (Store (<[idx := ref]> (fwrd st)) (<[idx := pos]> (type_positions st)) (types st),
     Ok tt).
Proof.
  intros Hc Hf Hi. rewrite (process_current_type_class _ _ _ _ Hc).
  unfold process_class. rewrite Hf. run_monad. now rewrite Hi.
Qed.

Lemma forward_declaration_leaves_catalog_witness :
  process_current_type (Samples.text Samples.foo_record_forward_scoped) 77
    (Store ∅ ∅ Samples.foo_vftable_only) =
    (Store (<[4096 := 4101]> ∅) (<[4096 := 77]> ∅) Samples.foo_vftable_only, Ok tt).
Proof.
  apply (forward_declaration_leaves_catalog
           (Samples.text Samples.foo_record_forward_scoped) 4096 77
           (Store ∅ ∅ Samples.foo_vftable_only) "0x1005" 4101).
  - exists "0x1000", "LF_STRUCTURE". vm_compute. auto.
  - vm_compute. reflexivity.
  - vm_compute. reflexivity.
Defined.

(** What [process_class] does with a record that reaches the merge. *)
Lemma process_class_merge content idx st name unique fl sz :
  fully_parsed content name unique fl sz ->
  process_class content idx st =
  let merged rva :=
    (Store (fwrd st) (type_positions st)
       (<[name := [rva; PInt idx; PInt fl; PStr unique; PInt sz]]> (types st)), Ok tt) in
  match types st !! name with
  | None => merged (PInt 0)
  | Some [] => (st, Raise IndexError)
  | Some (rva :: tl) =>
      if (Py.len_list (rva :: tl) =? 1) || last_item_is (rva :: tl) sz
      then merged rva
      else (st, Raise AssertionError)
  end.
Proof.
  intros (Hf & Hn & Hs & Hu & Hq & (g & Hg & Hgi) & (d & Hd & Hdi)).
  unfold process_class. rewrite Hf, Hn, Hs, Hu, Hq, Hg, Hd.
  unfold bind at 1, lift at 1. rewrite Hgi.
  unfold bind at 1, ret at 1. unfold bind at 1, lift at 1. rewrite Hdi.
  unfold bind at 1, get_types at 1. unfold bind at 1.
  destruct (types st !! name) as [[|rva tl]|]; [reflexivity| |reflexivity].
  unfold bind at 1, lift at 1, first_item. unfold bind at 1, assert.
  destruct ((Py.len_list (rva :: tl) =? 1) || last_item_is (rva :: tl) sz);
    reflexivity.
Qed.

(** C8. A fully parsed class or structure record whose name is in the
    catalog with a one-field entry, or with a five-field entry of the same
    size, replaces the entry by a five-field one that keeps the first
    field (the rva) of the old entry and takes the index, the field list,
    the unique name and the size of the record at hand. *)
Theorem merge_keeps_rva_and_refreshes
    (content : string) (idx pos : Z) (st : store)
    (name unique : string) (fl sz : Z) (elem : list pyval) (rva : pyval) :
  class_record content idx ->
  fully_parsed content name unique fl sz ->
  types st !! name = Some elem ->
  (elem = [rva] \/
   exists old_idx old_fl old_unique, elem = [rva; old_idx; old_fl; old_unique; PInt sz]) ->
  process_current_type content pos st =
    (Store (fwrd st) (<[idx := pos]> (type_positions st))
       (<[name := [rva; PInt idx; PInt fl; PStr unique; PInt sz]]> (types st)),
     Ok tt).
Proof.
  intros Hc Hp He Hshape. rewrite (process_current_type_class _ _ _ _ Hc).
  rewrite (process_class_merge _ _ _ _ _ _ _ Hp). simpl. rewrite He.
  destruct Hshape as [-> | (i & f & u & ->)]; [reflexivity|].
  replace (last_item_is [rva; i; f; u; PInt sz] sz) with true; [reflexivity|].
  unfold last_item_is. simpl. now rewrite bool_decide_eq_true_2.
Qed.

Lemma sample_foo_record_again :
  class_record (Samples.text Samples.foo_record_again) 4100 /\
  fully_parsed (Samples.text Samples.foo_record_again) "Foo" ".?AUFoo@@" 7 16.
Proof.
  split.
  - exists "0x1004", "LF_STRUCTURE". vm_compute. auto.
  - unfold fully_parsed. repeat split; try (vm_compute; reflexivity).
    + exists "0x7". vm_compute. auto.
    + exists "16". vm_compute. auto.
Defined.

(** The second definition of [Foo] met with the vftable-only entry, and
    met with the entry the first definition left. *)
Lemma merge_keeps_rva_and_refreshes_witness :
  process_current_type (Samples.text Samples.foo_record_again) 300
    (Store ∅ ∅ Samples.foo_vftable_only) =
    (Store ∅ (<[4100 := 300]> ∅)
       (<["Foo" := [PInt 4128; PInt 4100; PInt 7; PStr ".?AUFoo@@"; PInt 16]]>
          Samples.foo_vftable_only), Ok tt) /\
  process_current_type (Samples.text Samples.foo_record_again) 300
    (Store ∅ ∅ Samples.foo_resolved) =
    (Store ∅ (<[4100 := 300]> ∅)
       (<["Foo" := [PInt 4128; PInt 4100; PInt 7; PStr ".?AUFoo@@"; PInt 16]]>
          Samples.foo_resolved), Ok tt).
Proof.
  destruct sample_foo_record_again as [Hc Hp]. split.
  - apply (merge_keeps_rva_and_refreshes _ 4100 300 (Store ∅ ∅ Samples.foo_vftable_only)
             "Foo" ".?AUFoo@@" 7 16 [PInt 4128] (PInt 4128) Hc Hp).
    + vm_compute. reflexivity.
    + left. reflexivity.
  - apply (merge_keeps_rva_and_refreshes _ 4100 300 (Store ∅ ∅ Samples.foo_resolved)
             "Foo" ".?AUFoo@@" 7 16
             [PInt 4128; PInt 4096; PInt 5; PStr ".?AUFoo@@"; PInt 16] (PInt 4128) Hc Hp).
    + vm_compute. reflexivity.
    + right. exists (PInt 4096), (PInt 5), (PStr ".?AUFoo@@"). reflexivity.
Defined.

(** C6, counterexample.  A forward declaration of a scoped structure: the
    record is a structure record, its options text says [scoped], its
    name is [Foo], and yet after it is processed the vftable-only entry
    of [Foo] is still in the catalog, because the forward reference check
    returns first. *)
Lemma scoped_forward_declaration_keeps_entry :
  let content := Samples.text Samples.foo_record_forward_scoped in
  class_record content 4096 /\
  g_class_name_regexp content = Some "Foo" /\
  g_scoped_regexp content = true /\
  types (process_current_type content 77 (Store ∅ ∅ Samples.foo_vftable_only)).1
    !! "Foo" = Some [PInt 4128].
Proof.
  repeat split; try (vm_compute; reflexivity).
  exists "0x1000", "LF_STRUCTURE". vm_compute. auto.
Qed.

(** C6, amended.  A class or structure record that is not a forward
    declaration, whose name is extracted and whose text matches the scoped
    pattern, ends with its name absent from the catalog: an existing
    entry, vftable-only or not, is deleted, nothing is added and no other
    entry or forward reference changes. *)
Theorem scoped_record_removes_entry
    (content : string) (idx pos : Z) (st : store) (name : string) :
  class_record content idx ->
  g_fwd_ref_regexp content = None ->
  g_class_name_regexp content = Some name ->
  g_scoped_regexp content = true ->
  exists st',
    process_current_type content pos st = (st', Ok tt) /\
    types st' = delete name (types st) /\
    types st' !! name = None /\
    (forall other, other <> name -> types st' !! other = types st !! other) /\
    fwrd st' = fwrd st.
Proof.
  intros Hc Hf Hn Hs. rewrite (process_current_type_class _ _ _ _ Hc).
  unfold process_class. rewrite Hf, Hn, Hs. run_monad.
  destruct (types st !! name) as [elem|] eqn:E; eexists; (split; [reflexivity|]); simpl.
  - split; [reflexivity|]. split; [apply lookup_delete_eq|].
    split; [intros; now apply lookup_delete_ne | reflexivity].
  - split; [symmetry; now apply delete_id|]. split; [assumption|].
    split; [reflexivity | reflexivity].
Qed.

Lemma scoped_record_removes_entry_witness :
  exists st',
    process_current_type (Samples.text Samples.foo_record_scoped) 77
      (Store ∅ ∅ Samples.foo_vftable_only) = (st', Ok tt) /\
    types st' = delete "Foo" Samples.foo_vftable_only /\
    types st' !! "Foo" = None /\
    (forall other, other <> "Foo" ->
       types st' !! other = Samples.foo_vftable_only !! other) /\
    fwrd st' = ∅.
Proof.
  apply (scoped_record_removes_entry (Samples.text Samples.foo_record_scoped) 4096 77
           (Store ∅ ∅ Samples.foo_vftable_only) "Foo").
  - exists "0x1000", "LF_STRUCTURE". vm_compute. auto.
  - vm_compute. reflexivity.
  - vm_compute. reflexivity.
  - vm_compute. reflexivity.
Defined.

(** ** The stream reader *)

Lemma fill_types_info_app l1 l2 cat :
  fill_types_info (l1 ++ l2)%list cat = fold_left fill_step l2 (fill_types_info l1 cat).
Proof. unfold fill_types_info. apply fold_left_app. Qed.

Lemma class_record_not_empty content idx : class_record content idx -> content <> "".
Proof. intros (hx & leaf & Hh & _) ->. vm_compute in Hh. discriminate. Qed.

(** C1, counterexample.  Two definitions of [Foo], of sizes 16 and 24, in
    one type dump: the run of the core is not aborted.  It ends with its
    three groups, [Foo] keeping the entry of the first definition, and
    with one assertion failure printed.  A run that an error does abort is
    the one with a symbol in a section the table does not hold. *)
Lemma size_conflict_does_not_abort :
  main Samples.section_1 [Samples.foo_symbol; Samples.addr_1_32]
    (Samples.with_positions 0
       (Samples.preamble ++ Samples.foo_record ++ Samples.foo_record_24 ++
        Samples.pointer_record)%list) =
    Ok (Partition ∅ Samples.foo_resolved ∅, [AssertionError]) /\
  main Samples.section_1 [Samples.foo_symbol; Samples.addr_2_8]
    (Samples.with_positions 0
       (Samples.preamble ++ Samples.foo_record ++ Samples.pointer_record)%list) =
    Raise (KeyError 2).
Proof. split; vm_compute; reflexivity. Qed.

(** C1, amended.  When the buffered record is a fully parsed class or
    structure record whose name has a five-field entry with another size,
    [process_class] raises an assertion failure before it writes to the
    catalog.  The reader catches it at the next header line, prints it and
    goes on with the lines that follow: the catalog keeps the entry it
    had, the failure is on the list of what was printed, and the record
    stays in the buffer.  The run is not aborted. *)
Theorem size_conflict_raised_and_reported
    (pre : list (Z * string)) (cat0 : gmap string (list pyval))
    (pos : Z) (line : string) (h : string * string) (idx : Z)
    (name unique : string) (fl sz : Z)
    (rva old_idx old_fl old_unique old_size : pyval) :
  let r := fill_types_info pre cat0 in
  let st' := Store (fwrd (dicts r)) (<[idx := content_pos r]> (type_positions (dicts r)))
               (types (dicts r)) in
  class_record (content r) idx ->
  fully_parsed (content r) name unique fl sz ->
  types (dicts r) !! name = Some [rva; old_idx; old_fl; old_unique; old_size] ->
  old_size <> PInt sz ->
  g_type_header_regexp line = Some h ->
  process_current_type (content r) (content_pos r) (dicts r) =
    (st', Raise AssertionError) /\
  forall rest,
    fill_types_info (pre ++ (pos, line) :: rest)%list cat0 =
    fold_left fill_step rest
      (Reader (content r) (content_pos r) st'
         (printed r ++ [AssertionError])%list
         (delivered r ++ [(content r, content_pos r)])%list).
Proof.
  intros r st' Hc Hp He Hne Hh.
  assert (Hraise : process_current_type (content r) (content_pos r) (dicts r) =
                   (st', Raise AssertionError)).
  { rewrite (process_current_type_class _ _ _ _ Hc).
    rewrite (process_class_merge _ _ _ _ _ _ _ Hp). simpl. rewrite He.
    unfold last_item_is. simpl. rewrite bool_decide_eq_false_2; [reflexivity|].
    intros [= E]. congruence. }
  split; [assumption|]. intros rest.
  rewrite fill_types_info_app. fold r. simpl. f_equal.
  unfold fill_step. rewrite Hh, Hraise.
  destruct (content r) eqn:E; [|reflexivity].
  exfalso. apply (class_record_not_empty _ _ Hc). reflexivity.
Qed.

Lemma sample_conflict_reader :
  let r := fill_types_info
             (Samples.with_positions 0
                (Samples.preamble ++ Samples.foo_record ++ Samples.foo_record_24)%list)
             Samples.foo_vftable_only in
  class_record (content r) 4098 /\
  fully_parsed (content r) "Foo" ".?AUFoo@@" 6 24 /\
  types (dicts r) !! "Foo" =
    Some [PInt 4128; PInt 4096; PInt 5; PStr ".?AUFoo@@"; PInt 16].
Proof.
  split; [|split].
  - exists "0x1002", "LF_STRUCTURE". vm_compute. auto.
  - unfold fully_parsed. repeat split; try (vm_compute; reflexivity).
    + exists "0x6". vm_compute. auto.
    + exists "24". vm_compute. auto.
  - vm_compute. reflexivity.
Defined.

Lemma size_conflict_raised_and_reported_witness :
  let r := fill_types_info
             (Samples.with_positions 0
                (Samples.preamble ++ Samples.foo_record ++ Samples.foo_record_24)%list)
             Samples.foo_vftable_only in
  let st' := Store (fwrd (dicts r)) (<[4098 := content_pos r]> (type_positions (dicts r)))
               (types (dicts r)) in
  process_current_type (content r) (content_pos r) (dicts r) =
    (st', Raise AssertionError) /\
  forall rest,
    fill_types_info
      (Samples.with_positions 0
         (Samples.preamble ++ Samples.foo_record ++ Samples.foo_record_24)%list ++
       (600, Samples.line "  0x1001 | LF_POINTER [size = 12]") :: rest)%list
      Samples.foo_vftable_only =
    fold_left fill_step rest
      (Reader (content r) (content_pos r) st'
         (printed r ++ [AssertionError])%list
         (delivered r ++ [(content r, content_pos r)])%list).
Proof.
  destruct sample_conflict_reader as (Hc & Hp & He).
  apply (size_conflict_raised_and_reported _ _ 600
           (Samples.line "  0x1001 | LF_POINTER [size = 12]") ("0x1001", "LF_POINTER")
           4098 "Foo" ".?AUFoo@@" 6 24
           (PInt 4128) (PInt 4096) (PInt 5) (PStr ".?AUFoo@@") (PInt 16) Hc Hp He).
  - discriminate.
  - vm_compute. reflexivity.
Defined.

(** The three cases of a turn of the reader.  A line that is not a header
    is appended to the buffer and nothing is delivered. *)
Lemma fill_step_body r pos line :
  g_type_header_regexp line = None ->
  fill_step r (pos, line) =
  Reader (content r ++ line) (content_pos r) (dicts r) (printed r) (delivered r).
Proof. intros H. unfold fill_step. now rewrite H. Qed.

(** A header line met with a buffer that is not empty delivers the buffer
    and, when the processing returns, starts the next record with the
    header line and its position. *)
Lemma fill_step_header r pos line h st' :
  g_type_header_regexp line = Some h ->
  content r <> "" ->
  process_current_type (content r) (content_pos r) (dicts r) = (st', Ok tt) ->
  fill_step r (pos, line) =
  Reader line pos st' (printed r) (delivered r ++ [(content r, content_pos r)])%list.
Proof.
  intros H Hne Hp. unfold fill_step. rewrite H, Hp.
  destruct (content r); [congruence | reflexivity].
Qed.

(** A header line met with an empty buffer changes nothing: the line
    itself is not kept. *)
Lemma fill_step_header_empty r pos line h :
  g_type_header_regexp line = Some h ->
  content r = "" ->
  fill_step r (pos, line) = r.
Proof. intros H He. unfold fill_step. now rewrite H, He. Qed.

(** C2.  A stream that starts with the header line of [Foo]'s record,
    followed by the record of a pointer: a header line follows [Foo]'s
    record, and yet the classifier never receives that record.  On the
    first header line the buffer is empty, so the line is not stored;
    what is delivered at the second header line is the body alone, with
    the initial position, and the catalog is left as it was.  With lines
    before the first header, the same record is delivered whole. *)
Theorem first_record_loses_its_header :
  let r := fill_types_info
             (Samples.with_positions 0 (Samples.foo_record ++ Samples.pointer_record)%list)
             Samples.foo_vftable_only in
  let r' := fill_types_info
              (Samples.with_positions 0
                 (Samples.preamble ++ Samples.foo_record ++ Samples.pointer_record)%list)
              Samples.foo_vftable_only in
  (delivered r = [(Samples.text (tail Samples.foo_record), -1)] /\
   types (dicts r) = Samples.foo_vftable_only) /\
  (delivered r' = [(Samples.text Samples.preamble, -1);
                   (Samples.text Samples.foo_record, 121)] /\
   types (dicts r') = Samples.foo_resolved).
Proof. repeat split; vm_compute; reflexivity. Qed.

(** After a record whose processing raised, the buffer is not replaced
    either: the header line that triggered the delivery is dropped and
    the lines of the next record are appended to the old one, which is
    delivered again at the following header. *)
Example buffer_kept_after_raise :
  let r := fill_types_info
             (Samples.with_positions 0
                (Samples.preamble ++ Samples.foo_record ++ Samples.foo_record_24 ++
                 Samples.pointer_record ++ Samples.pointer_record)%list)
             Samples.foo_vftable_only in
  map fst (delivered r) =
    [Samples.text Samples.preamble;
     Samples.text Samples.foo_record;
     Samples.text Samples.foo_record_24;
     Samples.text (Samples.foo_record_24 ++ tail Samples.pointer_record)] /\
  printed r = [AssertionError; AssertionError].
Proof. split; vm_compute; reflexivity. Qed.

(** ** The run from the dumps to the groups *)

(** C3, counterexample.  The scenario with the address line as the text
    [addr = 1:0x20]: the address pattern takes decimal digits, so the
    offset it reads is [0] and the rva of [Foo] is [0x1000], not [0x1020],
    here with [Foo]'s record between other lines and a following header.
    With a type dump that holds [Foo]'s record and nothing else, the
    record is never processed and [Foo] stays a one-field entry. *)
Lemma scenario_foo_as_written :
  main Samples.section_1 [Samples.foo_symbol; Samples.addr_1_0x20]
    (Samples.with_positions 0
       (Samples.preamble ++ Samples.foo_record ++ Samples.pointer_record)%list) =
    Ok (Partition ∅
          {[ "Foo" := [PInt 4096; PInt 4096; PInt 5; PStr ".?AUFoo@@"; PInt 16] ]} ∅,
        []) /\
  main Samples.section_1 [Samples.foo_symbol; Samples.addr_1_0x20]
    (Samples.with_positions 0
       (Samples.preamble ++ Samples.foo_record ++ Samples.pointer_record)%list) <>
    Ok (Partition ∅ Samples.foo_resolved ∅, []) /\
  main Samples.section_1 [Samples.foo_symbol; Samples.addr_1_0x20]
    (Samples.with_positions 0 Samples.foo_record) =
    Ok (Partition ∅ ∅ {[ "Foo" := [PInt 4096] ]}, []).
Proof.
  split; [vm_compute; reflexivity|]. split; [|vm_compute; reflexivity].
  intros H.
  apply (f_equal (fun r => match r with
                           | Ok (p, _) => virtual_detailed_types p !! "Foo"
                           | Raise _ => None
                           end)) in H.
  vm_compute in H. discriminate.
Qed.

(** C3, amended.  Section table [{1: 0x1000}] read from the section dump,
    the vftable symbol of [Foo] followed by the address line
    [addr = 1:32], and a type dump where [Foo]'s record (index [0x1000],
    not scoped, named, unique name [.?AUFoo@@], field list [0x5], size 16)
    comes after the first lines of the dump and before another record:
    the run ends with [Foo] alone in the virtual group, with rva [0x1020],
    type index [0x1000], field list 5, its unique name and size 16, the
    two other groups empty and nothing printed. *)
Theorem scenario_foo_virtual :
  generate_section2rva Samples.section_1 = Ok {[1 := 4096]} /\
  main Samples.section_1 [Samples.foo_symbol; Samples.addr_1_32]
    (Samples.with_positions 0
       (Samples.preamble ++ Samples.foo_record ++ Samples.pointer_record)%list) =
    Ok (Partition ∅
          {[ "Foo" := [PInt 4128; PInt 4096; PInt 5; PStr ".?AUFoo@@"; PInt 16] ]} ∅,
        []).
Proof. split; vm_compute; reflexivity. Qed.

(** ** The shape of the catalog *)

Lemma vft_step_shape tbl st line2 st' :
  catalog_shape (out_types st) ->
  vft_step tbl st line2 = Ok st' ->
  catalog_shape (out_types st').
Proof.
  intros Hs H. unfold vft_step in H. apply rbind_ok in H as ([t w] & H & E).
  injection E as <-. simpl.
  destruct (g_GDATA32_regexp (line1 st)) as [[off name]|]; [|now injection H as <- _].
  unfold vft_record in H.
  destruct (g_addr_regexp (Py.strip line2)); [|now injection H as <- _].
  apply rbind_ok in H as (parts & _ & H).
  destruct parts as [|section [|offset [|? ?]]]; try discriminate.
  destruct (tbl !! section); [|discriminate].
  injection H as <- _. apply map_Forall_insert_2; [constructor | assumption].
Qed.

Lemma vft_loop_shape tbl lines :
  forall st st', catalog_shape (out_types st) ->
                 vft_loop tbl st lines = Ok st' ->
                 catalog_shape (out_types st').
Proof.
  induction lines as [|l lines IH]; simpl; intros st st' Hs H.
  - now injection H as <-.
  - apply rbind_ok in H as (st1 & H1 & H). eauto using vft_step_shape.
Qed.

(** The symbol pass gives one-field entries only. *)
Lemma get_types_with_vftable_shape lines tbl cat w :
  get_types_with_vftable lines tbl = Ok (cat, w) -> catalog_shape cat.
Proof.
  intros H. apply get_types_with_vftable_ok in H as (st & H & <- & _).
  eapply vft_loop_shape; [|eassumption]. apply map_Forall_empty.
Qed.

(** [process_class] keeps the shape, whether it returns or raises. *)
Lemma process_class_shape content idx st :
  catalog_shape (types st) ->
  catalog_shape (types (process_class content idx st).1).
Proof.
  intros Hs. unfold process_class.
  destruct (g_fwd_ref_regexp content) as [g|].
  { run_monad. destruct (Py.int16 g); assumption. }
  destruct (g_class_name_regexp content) as [name|]; [|assumption].
  destruct (g_scoped_regexp content).
  { run_monad. destruct (types st !! name); [|assumption].
    now apply map_Forall_delete. }
  destruct (Py.contains "<unnamed-" name); [assumption|].
  destruct (g_unique_name_regexp content) as [unique|]; [|assumption].
  destruct (g_field_list_regexp content) as [g|]; [|assumption].
  run_monad. destruct (Py.int16 g) as [fl|]; [|assumption].
  destruct (g_sizeof_regexp content) as [d|]; [|assumption]. simpl.
  destruct (Py.int10 d) as [sz|]; [|assumption]. simpl.
  destruct (types st !! name) as [elem|] eqn:E; simpl.
  - pose proof (Hs name elem E) as He. destruct He; simpl.
    + apply map_Forall_insert_2; [constructor | assumption].
    + destruct (last_item_is _ sz); simpl;
        [apply map_Forall_insert_2; [constructor | assumption] | assumption].
  - apply map_Forall_insert_2; [constructor | assumption].
Qed.

Lemma process_current_type_shape content pos st :
  catalog_shape (types st) ->
  catalog_shape (types (process_current_type content pos st).1).
Proof.
  intros Hs. unfold process_current_type.
  destruct (g_type_header_regexp content) as [[hx leaf]|]; [|assumption].
  unfold bind at 1, lift. destruct (Py.int16 hx) as [type_idx|]; [|assumption].
  unfold bind.
  assert (Hpos : forall b : bool,
             catalog_shape
               (types ((if b then set_type_position type_idx pos else ret tt) st).1)).
  { intros []; assumption. }
  specialize (Hpos (in_list leaf g_wanted_types)).
  destruct ((if in_list leaf g_wanted_types then set_type_position type_idx pos
             else ret tt) st) as [st1 [[]|e]] eqn:E; simpl in Hpos; [|assumption].
  destruct (String.eqb leaf "LF_CLASS" || String.eqb leaf "LF_STRUCTURE").
  - now apply process_class_shape.
  - destruct (String.eqb leaf "LF_FIELDLIST"); assumption.
Qed.

Lemma fill_step_shape r pos_line :
  catalog_shape (types (dicts r)) ->
  catalog_shape (types (dicts (fill_step r pos_line))).
Proof.
  intros Hs. destruct pos_line as [pos line]. unfold fill_step.
  destruct (g_type_header_regexp line); [|assumption].
  destruct (content r) eqn:Ec; [assumption|]. rewrite <- Ec.
  pose proof (process_current_type_shape (content r) (content_pos r) (dicts r) Hs) as H.
  destruct (process_current_type (content r) (content_pos r) (dicts r)) as [st' [[]|e]];
    assumption.
Qed.

(** The reader keeps the shape of the catalog it is handed. *)
Lemma fill_types_info_shape lines cat :
  catalog_shape cat -> catalog_shape (types (dicts (fill_types_info lines cat))).
Proof.
  unfold fill_types_info. intros Hs.
  assert (H : catalog_shape (types (dicts (fill_init cat)))) by assumption.
  revert H. generalize (fill_init cat). induction lines as [|l lines IH]; simpl; intros r H.
  - assumption.
  - apply IH. now apply fill_step_shape.
Qed.

(** ** The partition *)

(** An entry with one of the two shapes goes to the group [group_of]
    names, and to that group only. *)
Lemma partition_step_group name details p :
  entry_shape details ->
  exists g p',
    group_of details = Some g /\
    partition_step name details (Ok p) = Ok p' /\
    forall g', in_group p' g' =
               if decide (g' = g) then <[name := details]> (in_group p g')
               else in_group p g'.
Proof.
  intros [rva | rva i f u s]; unfold partition_step; simpl.
  - exists Unexpanded. eexists. split; [reflexivity|]. split; [reflexivity|].
    intros []; reflexivity.
  - destruct (0 <? rva).
    + exists Virtual. eexists. split; [reflexivity|]. split; [reflexivity|].
      intros []; reflexivity.
    + exists Other. eexists. split; [reflexivity|]. split; [reflexivity|].
      intros []; reflexivity.
Qed.

(** On a catalog of the two shapes the partition loop ends without an
    error, and a group holds exactly the entries [group_of] sends to it. *)
Lemma partition_types_groups (m : gmap string (list pyval)) :
  catalog_shape m ->
  exists p,
    partition_types m = Ok p /\
    forall name details g,
      in_group p g !! name = Some details <->
      m !! name = Some details /\ group_of details = Some g.
Proof.
  unfold partition_types.
  apply (map_fold_weak_ind
           (fun (acc : result partition) (m : gmap string (list pyval)) =>
              catalog_shape m ->
              exists p, acc = Ok p /\
                forall name details g,
                  in_group p g !! name = Some details <->
                  m !! name = Some details /\ group_of details = Some g)).
  - intros _. eexists. split; [reflexivity|]. intros name details g.
    destruct g; simpl; rewrite !lookup_empty; split; [discriminate | intros [? _]; discriminate
      | discriminate | intros [? _]; discriminate | discriminate | intros [? _]; discriminate].
  - intros i x m' r Hi IH Hs.
    apply map_Forall_insert in Hs as [Hx Hs]; [|assumption].
    destruct (IH Hs) as (p & -> & Hp).
    destruct (partition_step_group i x p Hx) as (g0 & p' & Hg0 & Hstep & Hin).
    exists p'. split; [assumption|]. intros name details g. rewrite Hin.
    destruct (decide (name = i)) as [->|Hne].
    + rewrite lookup_insert_eq. destruct (decide (g = g0)) as [->|Hg].
      * rewrite lookup_insert_eq. split.
        -- intros [= <-]. auto.
        -- intros [[= <-] _]. reflexivity.
      * split.
        -- intros H. apply Hp in H as [H _]. congruence.
        -- intros [[= <-] H]. congruence.
    + rewrite (lookup_insert_ne m') by auto.
      destruct (decide (g = g0)) as [->|Hg].
      * rewrite lookup_insert_ne by auto. apply Hp.
      * apply Hp.
Qed.

(** C9.  For the catalog a run ends with (the symbol pass followed by the
    type pass, on any dumps), the partition loop ends without an error
    and every entry is in exactly one of the three groups: the group its
    length and first field name ([Unexpanded] for one field, [Virtual]
    for more with a positive rva, [Other] for more with rva zero or
    less), with the value it has in the catalog, and in no other group.
    A group holds nothing else.  In particular a one-field entry is in
    the unexpanded group only, with its rva alone. *)
Theorem partition_one_group_each
    (tbl : gmap Z Z) (globals_file : list string) (types_file : list (Z * string))
    (cat0 : gmap string (list pyval)) (w : Z) :
  get_types_with_vftable globals_file tbl = Ok (cat0, w) ->
  let catalog := types (dicts (fill_types_info types_file cat0)) in
  exists p,
    partition_types catalog = Ok p /\
    (forall name details g,
       in_group p g !! name = Some details <->
       catalog !! name = Some details /\ group_of details = Some g) /\
    (forall name details,
       catalog !! name = Some details ->
       exists g,
         group_of details = Some g /\
         in_group p g !! name = Some details /\
         forall g', g' <> g -> in_group p g' !! name = None) /\
    (forall name rva,
       catalog !! name = Some [PInt rva] ->
       unexpanded_types p !! name = Some [PInt rva] /\
       virtual_detailed_types p !! name = None /\
       detailed_types p !! name = None).
Proof.
  intros Hsym catalog.
  assert (Hs : catalog_shape catalog).
  { apply fill_types_info_shape. eapply get_types_with_vftable_shape; eassumption. }
  destruct (partition_types_groups catalog Hs) as (p & Hp & Hin).
  assert (Honly : forall name details g,
             catalog !! name = Some details -> group_of details = Some g ->
             forall g', g' <> g -> in_group p g' !! name = None).
  { intros name details g Hl Hg g' Hne.
    destruct (in_group p g' !! name) as [d|] eqn:E; [|reflexivity].
    apply Hin in E as [E1 E2]. congruence. }
  exists p. split; [assumption|]. split; [assumption|]. split.
  - intros name details Hl.
    assert (Hg : exists g, group_of details = Some g).
    { destruct (Hs name details Hl); simpl; eauto. }
    destruct Hg as [g Hg]. exists g. split; [assumption|]. split.
    + apply Hin. auto.
    + eauto.
  - intros name rva Hl. split; [|split].
    + apply (Hin name [PInt rva] Unexpanded). auto.
    + apply (Honly name [PInt rva] Unexpanded Hl eq_refl Virtual). discriminate.
    + apply (Honly name [PInt rva] Unexpanded Hl eq_refl Other). discriminate.
Qed.

(** The symbols of [Foo] and [Bar] and a type dump with a record for
    [Foo] only. *)
Lemma partition_one_group_each_witness :
  let catalog :=
    types (dicts (fill_types_info
      (Samples.with_positions 0
         (Samples.preamble ++ Samples.foo_record ++ Samples.pointer_record)%list)
      {[ "Foo" := [PInt 4128]; "Bar" := [PInt 4160] ]})) in
  exists p,
    partition_types catalog = Ok p /\
    (forall name details g,
       in_group p g !! name = Some details <->
       catalog !! name = Some details /\ group_of details = Some g) /\
    (forall name details,
       catalog !! name = Some details ->
       exists g,
         group_of details = Some g /\
         in_group p g !! name = Some details /\
         forall g', g' <> g -> in_group p g' !! name = None) /\
    (forall name rva,
       catalog !! name = Some [PInt rva] ->
       unexpanded_types p !! name = Some [PInt rva] /\
       virtual_detailed_types p !! name = None /\
       detailed_types p !! name = None).
Proof.
  apply (partition_one_group_each {[1 := 4096]}
           [Samples.foo_symbol; Samples.addr_1_32; Samples.bar_symbol; Samples.addr_1_64]
           (Samples.with_positions 0
              (Samples.preamble ++ Samples.foo_record ++ Samples.pointer_record)%list)
           {[ "Foo" := [PInt 4128]; "Bar" := [PInt 4160] ]} 3).
  vm_compute. reflexivity.
Defined.

(** The same run through [main]: [Foo] is in the virtual group and [Bar],
    which has a symbol and no record, in the unexpanded group with its rva
    alone. *)
Example scenario_bar_unexpanded :
  main Samples.section_1
    [Samples.foo_symbol; Samples.addr_1_32; Samples.bar_symbol; Samples.addr_1_64]
    (Samples.with_positions 0
       (Samples.preamble ++ Samples.foo_record ++ Samples.pointer_record)%list) =
    Ok (Partition ∅ Samples.foo_resolved {[ "Bar" := [PInt 4160] ]}, []).
Proof. vm_compute. reflexivity. Qed.

(** * Further properties of the code *)

(** ** The section table is always built *)

Lemma all_chars_app cls a b :
  Py.all_chars cls (a ++ b) = Py.all_chars cls a && Py.all_chars cls b.
Proof.
  induction a as [|c a IH]; [reflexivity|].
  change (String c a ++ b) with (String c (a ++ b)). simpl. rewrite IH.
  now rewrite andb_assoc.
Qed.

Lemma is_hex_not_sign c : is_hex c = true -> c <> "-"%char /\ c <> "+"%char.
Proof. each_char c; intros _; split; discriminate. Qed.

Lemma is_hex_not_x c : is_hex c = true -> c <> "x"%char /\ c <> "X"%char.
Proof. each_char c; intros _; split; discriminate. Qed.

(** [int(s, 16)] on hexadecimal digits without a prefix. *)
Lemma int16_plain h :
  h <> "" -> Py.all_chars is_hex h = true ->
  Py.int16 h = Ok (Py.digits_value 16 0 h) /\ 0 <= Py.digits_value 16 0 h.
Proof.
  intros Hne Hh. split.
  - destruct h as [|c h]; [congruence|].
    pose proof Hh as Hh'. simpl in Hh'. apply andb_prop in Hh' as [Hc Hrest].
    destruct (is_hex_not_sign c Hc) as [Hm Hp].
    unfold Py.int16.
    assert (Hs : Py.strip_sign (String c h) = (false, String c h)).
    { unfold Py.strip_sign.
      destruct c as [[] [] [] [] [] [] [] []]; try reflexivity; congruence. }
    rewrite Hs.
    assert (Hb : match String c h with
                 | String "0" (String "x" h0) | String "0" (String "X" h0) => h0
                 | _ => String c h
                 end = String c h).
    { destruct h as [|c2 h]; [destruct c as [[] [] [] [] [] [] [] []]; reflexivity|].
      simpl in Hrest. apply andb_prop in Hrest as [Hc2 _].
      destruct (is_hex_not_x c2 Hc2) as [Hx HX].
      destruct c as [[] [] [] [] [] [] [] []]; try reflexivity.
      destruct c2 as [[] [] [] [] [] [] [] []]; try reflexivity; congruence. }
    rewrite Hb. unfold Py.unsigned_of_digits. now rewrite Hh.
  - apply (digits_value_nonneg 16 is_hex); try lia; [|assumption].
    intros c Hc. apply is_hex_value in Hc. lia.
Qed.

Lemma section_number_groups s :
  forall num r, Py.all_chars is_digit num = true ->
                section_number num s = Some r -> section_groups r.1.
Proof.
  assert (Hhere : forall num s r,
             Py.all_chars is_digit num = true ->
             match num with
             | "" => None
             | _ => let? (addr, rest) := search virtual_address_here s in
                    Some (num, addr, rest)
             end = Some r -> section_groups r.1).
  { intros num t r Hnum H. destruct num as [|c num]; [discriminate|].
    destruct (search virtual_address_here t) as [[addr rest]|] eqn:E; [|discriminate].
    injection H as <-. apply search_found in E as [u E].
    unfold virtual_address_here in E. open_pattern E. injection E as <- <-.
    match goal with
    | E : many1 _ _ = Some _ |- _ => apply many1_run in E as (? & ? & ?)
    end.
    repeat split; simpl; auto; discriminate. }
  induction s as [|c s IH]; intros num r Hnum H.
  - cbn [section_number] in H. eapply Hhere; eassumption.
  - cbn [section_number] in H. destruct (is_digit c) eqn:Ec.
    + destruct (section_number (num ++ String c "") s) as [r'|] eqn:E.
      * injection H as <-. eapply IH; [|eassumption].
        rewrite all_chars_app, Hnum. simpl. now rewrite Ec.
      * eapply Hhere; eassumption.
    + eapply Hhere; eassumption.
Qed.

Lemma findall_groups s : forall skip, Forall section_groups (findall skip s).
Proof.
  induction s as [|c s IH]; intros skip; simpl; [constructor|].
  destruct skip; [|apply IH].
  destruct (section_header_here (String c s)) as [[[num addr] rest]|] eqn:E;
    [|apply IH].
  constructor; [|apply IH].
  unfold section_header_here in E.
  destruct (lit "SECTION HEADER #" (String c s)) as [t|]; [|discriminate].
  apply (section_number_groups t "" (num, addr, rest) eq_refl E).
Qed.

(** The loop over the matches ends with a table of non-negative numbers
    when [int] converts every section number, and in a [ValueError] when
    one of them is too long; the address always converts. *)
Lemma fill_section_data_spec ms :
  Forall section_groups ms ->
  forall m, (forall k v, m !! k = Some v -> 0 <= k /\ 0 <= v) ->
  match fill_section_data ms m with
  | Ok m' => (forall k v, m' !! k = Some v -> 0 <= k /\ 0 <= v) /\
             Forall (fun p : string * string => convertible p.1) ms
  | Raise e => e = ValueError /\
               Exists (fun p : string * string => ~ convertible p.1) ms
  end.
Proof.
  induction 1 as [|[num addr] ms [Hn [Ha Hah]] _ IH]; intros m Hm; simpl.
  - split; [assumption | constructor].
  - simpl in *. destruct (convertible_dec num) as [Hc|Hc].
    + rewrite (int10_digits num Hn Hc).
      destruct (int16_plain addr Ha Hah) as [-> ?]. simpl.
      pose proof (decimal_value_nonneg num Hn).
      specialize (IH (<[decimal_value num := Py.digits_value 16 0 addr]> m)).
      destruct (fill_section_data ms _) as [m'|e].
      * destruct IH as [IH1 IH2].
        { intros k v. rewrite lookup_insert. case_decide.
          - intros [= <-]. subst. auto.
          - apply Hm. }
        split; [assumption|]. constructor; assumption.
      * destruct IH as [IH1 IH2].
        { intros k v. rewrite lookup_insert. case_decide.
          - intros [= <-]. subst. auto.
          - apply Hm. }
        split; [assumption|]. now apply Exists_cons_tl.
    + rewrite (int10_too_long num Hn Hc). simpl. split; [reflexivity|].
      now apply Exists_cons_hd.
Qed.

Lemma generate_section2rva_spec file_content :
  match generate_section2rva file_content with
  | Ok tbl => (forall k v, tbl !! k = Some v -> 0 <= k /\ 0 <= v) /\
              Forall (fun p : string * string => convertible p.1) (findall O file_content)
  | Raise e => e = ValueError /\
               Exists (fun p : string * string => ~ convertible p.1)
                 (findall O file_content)
  end.
Proof.
  unfold generate_section2rva.
  apply fill_section_data_spec; [apply findall_groups|].
  intros k v. rewrite lookup_empty. discriminate.
Qed.

(** X1.  On the text of a section dump, [generate_section2rva] can raise
    one exception only, the [ValueError] of [int] on a section number of
    more than 4300 digits: it returns a table whenever no match has such a
    number, and the hexadecimal address of a match always converts.  The
    indices and addresses of the table it returns are never negative. *)
Theorem generate_section2rva_raises_value_error_only (file_content : string) :
  (Forall (fun p : string * string => convertible p.1) (findall O file_content) ->
   exists section_data, generate_section2rva file_content = Ok section_data) /\
  (forall e, generate_section2rva file_content = Raise e ->
             e = ValueError /\
             Exists (fun p : string * string => ~ convertible p.1)
               (findall O file_content)) /\
  (forall section_data,
     generate_section2rva file_content = Ok section_data ->
     forall k v, section_data !! k = Some v -> 0 <= k /\ 0 <= v).
Proof.
  pose proof (generate_section2rva_spec file_content) as H.
  destruct (generate_section2rva file_content) as [tbl|e].
  - split; [eauto|]. split; [discriminate|]. intros ? [= <-]. apply H.
  - destruct H as [-> HE]. split; [|split; [|discriminate]].
    + intros HF. exfalso. apply Exists_exists in HE as (p & Hin & Hp).
      rewrite Forall_forall in HF. auto.
    + intros ? [= <-]. auto.
Qed.

(** ** The symbol pass *)

Lemma rbind_raise {A B} (r : result A) (k : A -> result B) e :
  rbind r k = Raise e -> r = Raise e \/ exists a, r = Ok a /\ k a = Raise e.
Proof. destruct r; simpl; [eauto | intros [= <-]; auto]. Qed.

(** A turn of the loop raises only at the conversion of the address
    fields and at the lookup of the section. *)
Lemma vft_step_raise tbl st line2 e :
  vft_step tbl st line2 = Raise e -> symbol_pass_error tbl [line2] e.
Proof.
  unfold vft_step. intros H.
  apply rbind_raise in H as [H | ([t w] & _ & H)]; [|discriminate].
  destruct (g_GDATA32_regexp (line1 st)) as [[rec name]|]; [|discriminate].
  unfold vft_record in H.
  destruct (g_addr_regexp (Py.strip line2)) as [addr|] eqn:Ea; [|discriminate].
  destruct (addr_match_digits _ _ Ea) as (sec & off & -> & Hs & Ho).
  exists line2, sec, off. split; [now left|]. split; [assumption|].
  split; [assumption|]. split; [assumption|].
  destruct (convertible_dec sec) as [Hcs|Hcs], (convertible_dec off) as [Hco|Hco];
    try (rewrite addr_fields_too_long in H by auto; injection H as <-; right; auto).
  rewrite addr_fields_ok in H by assumption. simpl in H.
  destruct (tbl !! decimal_value sec) eqn:Et; [discriminate|].
  injection H as <-. left. auto.
Qed.

Lemma symbol_pass_error_more tbl l1 l2 e :
  (forall x, In x l1 -> In x l2) ->
  symbol_pass_error tbl l1 e -> symbol_pass_error tbl l2 e.
Proof.
  intros Hsub (line & sec & off & Hin & H). exists line, sec, off. auto.
Qed.

Lemma vft_loop_raise_only tbl lines :
  forall st e, vft_loop tbl st lines = Raise e -> symbol_pass_error tbl lines e.
Proof.
  induction lines as [|l lines IH]; simpl; intros st e H; [discriminate|].
  apply rbind_raise in H as [H | (st1 & _ & H)].
  - apply vft_step_raise in H.
    eapply symbol_pass_error_more; [|eassumption]. intros x [<-|[]]. now left.
  - apply IH in H. eapply symbol_pass_error_more; [|eassumption].
    intros x Hx. now right.
Qed.

Lemma get_types_with_vftable_raise tbl lines e :
  get_types_with_vftable lines tbl = Raise e -> symbol_pass_error tbl lines e.
Proof.
  unfold get_types_with_vftable. intros H.
  apply rbind_raise in H as [H | (st & _ & H)]; [|discriminate].
  eapply vft_loop_raise_only; eassumption.
Qed.

(** X2.  On the lines of a symbol dump, [get_types_with_vftable] can be
    aborted in two ways only, each by a line whose address field is a run
    of digits, a colon and a run of digits: with both runs short enough
    for [int], the [KeyError] of the value of the first run, a section
    index that the table does not hold; with a run of more than 4300
    digits, the [ValueError] of [int].  The split of the address and its
    unpacking into two values never fail. *)
Theorem get_types_with_vftable_abort_causes
    (lines : list string) (tbl : gmap Z Z) (e : exn) :
  get_types_with_vftable lines tbl = Raise e ->
  exists line sec off,
    In line lines /\
    g_addr_regexp (Py.strip line) = Some (sec ++ ":" ++ off) /\
    decimal sec /\ decimal off /\
    ((convertible sec /\ convertible off /\
      tbl !! decimal_value sec = None /\ e = KeyError (decimal_value sec)) \/
     ((~ convertible sec \/ ~ convertible off) /\ e = ValueError)).
Proof. apply get_types_with_vftable_raise. Qed.

Lemma get_types_with_vftable_abort_causes_witness :
  exists line sec off,
    In line [Samples.foo_symbol; Samples.addr_2_8] /\
    g_addr_regexp (Py.strip line) = Some (sec ++ ":" ++ off) /\
    decimal sec /\ decimal off /\
    ((convertible sec /\ convertible off /\
      ({[1 := 4096]} : gmap Z Z) !! decimal_value sec = None /\
      KeyError 2 = KeyError (decimal_value sec)) \/
     ((~ convertible sec \/ ~ convertible off) /\ KeyError 2 = ValueError)).
Proof.
  apply (get_types_with_vftable_abort_causes
           [Samples.foo_symbol; Samples.addr_2_8] {[1 := 4096]} (KeyError 2)).
  vm_compute. reflexivity.
Defined.

Lemma vft_step_width tbl st line2 st' :
  width_of_names (out_types st) (max_width st) ->
  vft_step tbl st line2 = Ok st' ->
  width_of_names (out_types st') (max_width st').
Proof.
  intros [Hle Hmax] H. unfold vft_step in H. apply rbind_ok in H as ([t w] & H & E).
  injection E as <-. simpl.
  destruct (g_GDATA32_regexp (line1 st)) as [[off name]|];
    [|injection H as <- <-; split; assumption].
  unfold vft_record in H.
  destruct (g_addr_regexp (Py.strip line2)); [|injection H as <- <-; split; assumption].
  apply rbind_ok in H as (parts & _ & H).
  destruct parts as [|section [|offset [|? ?]]]; try discriminate.
  destruct (tbl !! section); [|discriminate].
  injection H as <- <-.
  assert (Hlen : 0 <= Py.len name) by (unfold Py.len; lia).
  split.
  - intros n. rewrite lookup_insert. case_decide.
    + subst. intros _. destruct (Z.ltb_spec (max_width st) (Py.len n)); lia.
    + intros Hn. specialize (Hle n Hn).
      destruct (Z.ltb_spec (max_width st) (Py.len name)); lia.
  - right. destruct (Z.ltb_spec (max_width st) (Py.len name)).
    + exists name. rewrite lookup_insert_eq. eauto.
    + destruct Hmax as [[_ Hw] | (n & Hn & Hw)]; [lia|].
      exists n. split; [|assumption].
      rewrite lookup_insert. case_decide; eauto.
Qed.

Lemma vft_loop_width tbl lines :
  forall st st', width_of_names (out_types st) (max_width st) ->
                 vft_loop tbl st lines = Ok st' ->
                 width_of_names (out_types st') (max_width st').
Proof.
  induction lines as [|l lines IH]; simpl; intros st st' Hw H.
  - now injection H as <-.
  - apply rbind_ok in H as (st1 & H1 & H). eauto using vft_step_width.
Qed.

(** X3.  The width [get_types_with_vftable] returns is the length of the
    longest type name of the catalog it returns: no name is longer, and
    some name has that length, unless the catalog is empty, in which case
    the width is [-1]. *)
Theorem max_width_is_longest_name
    (lines : list string) (tbl : gmap Z Z) (cat : gmap string (list pyval)) (w : Z) :
  get_types_with_vftable lines tbl = Ok (cat, w) ->
  (forall name, is_Some (cat !! name) -> Py.len name <= w) /\
  ((cat = ∅ /\ w = -1) \/ exists name, is_Some (cat !! name) /\ Py.len name = w).
Proof.
  intros H. apply get_types_with_vftable_ok in H as (st & H & <- & <-).
  apply (vft_loop_width tbl lines vft_init st); [|assumption].
  split; [|left; auto]. intros name [x Hx].
  unfold vft_init in Hx. cbn [out_types] in Hx. now rewrite lookup_empty in Hx.
Qed.

Lemma max_width_is_longest_name_witness :
  (forall name,
     is_Some (({[ "Foo" := [PInt 4128]; "Bar" := [PInt 4160] ]}
               : gmap string (list pyval)) !! name) -> Py.len name <= 3) /\
  ((({[ "Foo" := [PInt 4128]; "Bar" := [PInt 4160] ]} : gmap string (list pyval)) = ∅
    /\ 3 = -1) \/
   exists name,
     is_Some (({[ "Foo" := [PInt 4128]; "Bar" := [PInt 4160] ]}
               : gmap string (list pyval)) !! name) /\ Py.len name = 3).
Proof.
  apply (max_width_is_longest_name
           [Samples.foo_symbol; Samples.addr_1_32; Samples.bar_symbol; Samples.addr_1_64]
           {[1 := 4096]}).
  vm_compute. reflexivity.
Defined.

Lemma vft_step_entries tbl st line2 st' :
  (forall k v, tbl !! k = Some v -> 0 <= v) ->
  vftable_entries (out_types st) ->
  vft_step tbl st line2 = Ok st' ->
  vftable_entries (out_types st').
Proof.
  intros Htbl Hs H. unfold vft_step in H. apply rbind_ok in H as ([t w] & H & E).
  injection E as <-. simpl.
  destruct (g_GDATA32_regexp (line1 st)) as [[rec name]|]; [|now injection H as <- _].
  unfold vft_record in H.
  destruct (g_addr_regexp (Py.strip line2)) as [addr|] eqn:Ea; [|now injection H as <- _].
  destruct (addr_match_digits _ _ Ea) as (sec & off & -> & Hsec & Hoff).
  apply rbind_ok in H as (parts & Hf & H).
  apply addr_fields_inv in Hf as (_ & _ & ->); [|assumption..].
  pose proof (decimal_value_nonneg off Hoff) as Ho.
  destruct (tbl !! decimal_value sec) as [base|] eqn:Et; [|discriminate].
  injection H as <- _. intros n d. rewrite lookup_insert. case_decide.
  - intros [= <-]. eexists. split; [reflexivity|]. specialize (Htbl _ _ Et). lia.
  - apply Hs.
Qed.

Lemma vft_loop_entries tbl lines :
  (forall k v, tbl !! k = Some v -> 0 <= v) ->
  forall st st', vftable_entries (out_types st) ->
                 vft_loop tbl st lines = Ok st' ->
                 vftable_entries (out_types st').
Proof.
  intros Htbl. induction lines as [|l lines IH]; simpl; intros st st' Hs H.
  - now injection H as <-.
  - apply rbind_ok in H as (st1 & H1 & H). eauto using vft_step_entries.
Qed.

Lemma get_types_with_vftable_entries lines tbl cat w :
  (forall k v, tbl !! k = Some v -> 0 <= v) ->
  get_types_with_vftable lines tbl = Ok (cat, w) ->
  vftable_entries cat.
Proof.
  intros Htbl H. apply get_types_with_vftable_ok in H as (st & H & <- & _).
  apply (vft_loop_entries tbl lines Htbl vft_init st); [|assumption].
  intros name details Hl.
  unfold vft_init in Hl. cbn [out_types] in Hl. now rewrite lookup_empty in Hl.
Qed.

(** X4.  With a section table whose addresses are not negative, every
    entry of the catalog [get_types_with_vftable] returns is a list of one
    integer, and that rva is not negative. *)
Theorem vftable_catalog_one_field
    (lines : list string) (tbl : gmap Z Z) (cat : gmap string (list pyval)) (w : Z) :
  (forall k v, tbl !! k = Some v -> 0 <= v) ->
  get_types_with_vftable lines tbl = Ok (cat, w) ->
  forall name details, cat !! name = Some details ->
                       exists rva, details = [PInt rva] /\ 0 <= rva.
Proof. intros Htbl H. exact (get_types_with_vftable_entries _ _ _ _ Htbl H). Qed.

Lemma vftable_catalog_one_field_witness :
  exists rva, [PInt 4160] = [PInt rva] /\ 0 <= rva.
Proof.
  apply (vftable_catalog_one_field
           [Samples.foo_symbol; Samples.addr_1_32; Samples.bar_symbol; Samples.addr_1_64]
           {[1 := 4096]} {[ "Foo" := [PInt 4128]; "Bar" := [PInt 4160] ]} 3)
    with (name := "Bar").
  - intros k v. rewrite lookup_singleton. case_decide; [|discriminate].
    intros [= <-]. lia.
  - vm_compute. reflexivity.
  - vm_compute. reflexivity.
Defined.

(** ** The classifier, case by case *)


(** X5.  A buffer that is not a class or structure record (other text, a
    field list, a record of another leaf kind) is processed without an
    error and leaves the catalog and the forward references as they
    were. *)
Theorem other_records_leave_catalog (content : string) (pos : Z) (st : store) :
  (forall idx, ~ class_record content idx) ->
  exists st',
    process_current_type content pos st = (st', Ok tt) /\
    types st' = types st /\ fwrd st' = fwrd st.
Proof.
  intros Hn. unfold process_current_type.
  destruct (g_type_header_regexp content) as [[hx leaf]|] eqn:Eh;
    [|exists st; auto].
  destruct (type_header_index _ _ _ Eh) as (idx & Hi & _).
  unfold bind at 1, lift. rewrite Hi.
  assert (Hl : String.eqb leaf "LF_CLASS" || String.eqb leaf "LF_STRUCTURE" = false).
  { destruct (String.eqb leaf "LF_CLASS") eqn:E1.
    - apply String.eqb_eq in E1. exfalso. apply (Hn idx). exists hx, leaf. auto.
    - destruct (String.eqb leaf "LF_STRUCTURE") eqn:E2; [|reflexivity].
      apply String.eqb_eq in E2. exfalso. apply (Hn idx). exists hx, leaf. auto. }
  rewrite Hl. unfold bind, process_fieldlist, ret, set_type_position.
  destruct (in_list leaf g_wanted_types), (String.eqb leaf "LF_FIELDLIST");
    eexists; (split; [reflexivity|]); auto.
Qed.

Lemma other_records_leave_catalog_witness :
  exists st',
    process_current_type (Samples.text Samples.pointer_record) 40
      (Store ∅ ∅ Samples.foo_vftable_only) = (st', Ok tt) /\
    types st' = Samples.foo_vftable_only /\ fwrd st' = ∅.
Proof.
  apply (other_records_leave_catalog (Samples.text Samples.pointer_record) 40
           (Store ∅ ∅ Samples.foo_vftable_only)).
  intros idx (hx & leaf & Hh & _ & Hl).
  vm_compute in Hh. injection Hh as <- <-. destruct Hl; discriminate.
Defined.

Lemma int10_raise s e : Py.int10 s = Raise e -> e = ValueError.
Proof.
  unfold Py.int10, Py.unsigned_of_digits.
  destruct (Py.strip_sign s) as [neg d].
  destruct (Py.int_max_str_digits <? String.length d)%nat; [congruence|].
  destruct d; [simpl; congruence|].
  destruct (Py.all_chars is_digit (String a d)); simpl; congruence.
Qed.

Lemma int16_raise s e : Py.int16 s = Raise e -> e = ValueError.
Proof.
  unfold Py.int16, Py.unsigned_of_digits.
  destruct (Py.strip_sign s) as [neg d].
  match goal with |- context [Py.all_chars is_hex ?b] => destruct b end;
    simpl; [congruence|].
  match goal with |- context [if ?b then _ else _] => destruct b end;
    simpl; congruence.
Qed.

(** [process_class] ends in one of the ways of [class_outcome]. *)
Lemma process_class_outcome content idx st :
  class_outcome content idx st (process_class content idx st).
Proof.
  destruct (g_fwd_ref_regexp content) as [g|] eqn:Ef.
  { unfold process_class. rewrite Ef. run_monad.
    destruct (Py.int16 g) as [ref|e] eqn:E.
    - eapply outcome_forward; eassumption.
    - apply int16_raise in E as ->. apply outcome_unreadable. auto. }
  destruct (g_class_name_regexp content) as [name|] eqn:En.
  2:{ unfold process_class. rewrite Ef, En. apply outcome_skipped. }
  destruct (g_scoped_regexp content) eqn:Es.
  { unfold process_class. rewrite Ef, En, Es. run_monad.
    destruct (types st !! name) as [elem|] eqn:El.
    - eapply outcome_scoped; eassumption.
    - apply outcome_skipped. }
  destruct (Py.contains "<unnamed-" name) eqn:Eu.
  { unfold process_class. rewrite Ef, En, Es, Eu. apply outcome_skipped. }
  destruct (g_unique_name_regexp content) as [unique|] eqn:Eq.
  2:{ unfold process_class. rewrite Ef, En, Es, Eu, Eq. apply outcome_skipped. }
  destruct (g_field_list_regexp content) as [g|] eqn:Eg.
  2:{ unfold process_class. rewrite Ef, En, Es, Eu, Eq, Eg. apply outcome_skipped. }
  destruct (Py.int16 g) as [fl|e] eqn:E16.
  2:{ unfold process_class. rewrite Ef, En, Es, Eu, Eq, Eg.
      unfold bind at 1, lift at 1. rewrite E16.
      apply int16_raise in E16 as ->. apply outcome_unreadable. auto. }
  destruct (g_sizeof_regexp content) as [d|] eqn:Ed.
  2:{ unfold process_class. rewrite Ef, En, Es, Eu, Eq, Eg, Ed.
      unfold bind at 1, lift at 1. rewrite E16. unfold bind at 1, raise.
      apply outcome_unreadable. auto. }
  destruct (Py.int10 d) as [sz|e] eqn:E10.
  2:{ unfold process_class. rewrite Ef, En, Es, Eu, Eq, Eg, Ed.
      unfold bind at 1, lift at 1. rewrite E16. unfold bind at 1, ret at 1.
      unfold bind at 1, lift at 1. rewrite E10.
      apply int10_raise in E10 as ->. apply outcome_unreadable. auto. }
  assert (Hp : fully_parsed content name unique fl sz).
  { unfold fully_parsed. repeat split; eauto. }
  rewrite (process_class_merge _ idx st _ _ _ _ Hp). cbv zeta.
  destruct (types st !! name) as [[|rva tl]|] eqn:El.
  - eapply outcome_empty_entry; eassumption.
  - destruct ((Py.len_list (rva :: tl) =? 1) || last_item_is (rva :: tl) sz) eqn:Eb.
    + eapply outcome_merged; eassumption.
    + eapply outcome_conflict; eassumption.
  - eapply outcome_new; eassumption.
Qed.

(** [process_class] writes to the catalog at the display name only. *)
Lemma process_class_own_name content idx st other :
  g_class_name_regexp content <> Some other ->
  types (process_class content idx st).1 !! other = types st !! other.
Proof.
  intros Hne.
  destruct (process_class_outcome content idx st)
    as [ | | name ? _ Hn | | name ? ? ? (_ & Hn & _) | name ? ? ? ? ? (_ & Hn & _) | | ];
    cbn [fst types]; try reflexivity.
  - apply lookup_delete_ne. congruence.
  - apply lookup_insert_ne. congruence.
  - apply lookup_insert_ne. congruence.
Qed.

(** X6.  Whatever a buffered record holds and whether its processing
    returns or raises, the only catalog entry that can change is the one
    of the display name the class name pattern extracts from it: every
    other name keeps the entry, or the absence, it had. *)
Theorem record_touches_its_name_only
    (content : string) (pos : Z) (st : store) (other : string) :
  g_class_name_regexp content <> Some other ->
  types (process_current_type content pos st).1 !! other = types st !! other.
Proof.
  intros Hne. unfold process_current_type.
  destruct (g_type_header_regexp content) as [[hx leaf]|]; [|reflexivity].
  unfold bind at 1, lift. destruct (Py.int16 hx) as [idx|]; [|reflexivity].
  unfold bind.
  destruct (in_list leaf g_wanted_types); unfold set_type_position, ret;
    (destruct (String.eqb leaf "LF_CLASS" || String.eqb leaf "LF_STRUCTURE");
     [now rewrite process_class_own_name
     | destruct (String.eqb leaf "LF_FIELDLIST"); reflexivity]).
Qed.

Lemma record_touches_its_name_only_witness :
  types (process_current_type (Samples.text Samples.foo_record_scoped) 40
           (Store ∅ ∅ {[ "Foo" := [PInt 4128]; "Bar" := [PInt 4160] ]})).1 !! "Bar" =
  ({[ "Foo" := [PInt 4128]; "Bar" := [PInt 4160] ]} : gmap string (list pyval)) !! "Bar".
Proof.
  refine (record_touches_its_name_only (Samples.text Samples.foo_record_scoped) 40
            (Store ∅ ∅ {[ "Foo" := [PInt 4128]; "Bar" := [PInt 4160] ]}) "Bar" _).
  vm_compute. discriminate.
Defined.

(** When [process_class] raises, it has written nothing. *)
Lemma process_class_raise content idx st st' e :
  process_class content idx st = (st', Raise e) ->
  st' = st /\
  (e = ValueError \/ e = AttributeError \/ e = AssertionError \/
   (e = IndexError /\ exists name, types st !! name = Some [])).
Proof.
  intros H. pose proof (process_class_outcome content idx st) as Ho.
  rewrite H in Ho. inversion Ho; subst; split; try reflexivity; eauto 6.
  match goal with H : _ \/ _ |- _ => destruct H; auto end.
Qed.

Lemma process_current_type_raise
    (content : string) (pos : Z) (st st' : store) (e : exn) :
  catalog_shape (types st) ->
  process_current_type content pos st = (st', Raise e) ->
  types st' = types st /\ fwrd st' = fwrd st /\
  (e = ValueError \/ e = AttributeError \/ e = AssertionError).
Proof.
  intros Hs. unfold process_current_type.
  destruct (g_type_header_regexp content) as [[hx leaf]|] eqn:Eh; [|discriminate].
  destruct (type_header_index _ _ _ Eh) as (idx & Hi & _).
  unfold bind at 1, lift. rewrite Hi. unfold bind.
  assert (Hcls : forall st1, types st1 = types st -> fwrd st1 = fwrd st ->
             process_class content idx st1 = (st', Raise e) ->
             types st' = types st /\ fwrd st' = fwrd st /\
             (e = ValueError \/ e = AttributeError \/ e = AssertionError)).
  { intros st1 Ht Hf H. apply process_class_raise in H as [-> He].
    split; [assumption|]. split; [assumption|].
    destruct He as [?|[?|[?|[_ (name & Hn)]]]]; auto.
    rewrite Ht in Hn. pose proof (Hs name [] Hn) as Hsh. inversion Hsh. }
  destruct (in_list leaf g_wanted_types); unfold set_type_position, ret;
    (destruct (String.eqb leaf "LF_CLASS" || String.eqb leaf "LF_STRUCTURE");
     [apply Hcls; reflexivity
     | destruct (String.eqb leaf "LF_FIELDLIST"); discriminate]).
Qed.

(** X7.  When the processing of a buffered record raises, the catalog and
    the forward references are the ones it started with: every exception
    comes before the write.  On a catalog whose entries have one or five
    fields the exception is a [ValueError] (an index that does not
    convert), an [AttributeError] (no [sizeof]) or an [AssertionError]
    (another size). *)
Theorem raise_leaves_catalog
    (content : string) (pos : Z) (st st' : store) (e : exn) :
  catalog_shape (types st) ->
  process_current_type content pos st = (st', Raise e) ->
  types st' = types st /\ fwrd st' = fwrd st /\
  (e = ValueError \/ e = AttributeError \/ e = AssertionError).
Proof. apply process_current_type_raise. Qed.

Lemma raise_leaves_catalog_witness :
  Samples.foo_resolved = Samples.foo_resolved /\
  (∅ : gmap Z Z) = ∅ /\
  (AssertionError = ValueError \/ AssertionError = AttributeError \/
   AssertionError = AssertionError).
Proof.
  apply (raise_leaves_catalog (Samples.text Samples.foo_record_24) 200
           (Store ∅ ∅ Samples.foo_resolved)
           (Store ∅ (<[4098 := 200]> ∅) Samples.foo_resolved) AssertionError).
  - intros name details. unfold Samples.foo_resolved. simpl.
    rewrite lookup_singleton. case_decide; [|discriminate].
    intros [= <-]. constructor.
  - vm_compute. reflexivity.
Defined.

(** X8.  A fully parsed class or structure record whose display name is
    not in the catalog adds a five-field entry with rva [0] and the four
    values of the record; it raises nothing. *)
Theorem new_name_gets_rva_zero
    (content : string) (idx pos : Z) (st : store)
    (name unique : string) (fl sz : Z) :
  class_record content idx ->
  fully_parsed content name unique fl sz ->
  types st !! name = None ->
  process_current_type content pos st =
    (Store (fwrd st) (<[idx := pos]> (type_positions st))
       (<[name := [PInt 0; PInt idx; PInt fl; PStr unique; PInt sz]]> (types st)),
     Ok tt).
Proof.
  intros Hc Hp Hn. rewrite (process_current_type_class _ _ _ _ Hc).
  rewrite (process_class_merge _ _ _ _ _ _ _ Hp). simpl. now rewrite Hn.
Qed.

Lemma new_name_gets_rva_zero_witness :
  process_current_type (Samples.text Samples.foo_record_again) 300
    (Store ∅ ∅ {[ "Bar" := [PInt 4160] ]}) =
    (Store ∅ (<[4100 := 300]> ∅)
       (<["Foo" := [PInt 0; PInt 4100; PInt 7; PStr ".?AUFoo@@"; PInt 16]]>
          {[ "Bar" := [PInt 4160] ]}), Ok tt).
Proof.
  destruct sample_foo_record_again as [Hc Hp].
  refine (new_name_gets_rva_zero _ 4100 300 (Store ∅ ∅ {[ "Bar" := [PInt 4160] ]})
            "Foo" ".?AUFoo@@" 7 16 Hc Hp _).
  vm_compute. reflexivity.
Defined.

(** ** The type pass as a whole *)

Lemma fill_body_lines tail :
  Forall (fun pl : Z * string => g_type_header_regexp pl.2 = None) tail ->
  forall r,
    let r' := fold_left fill_step tail r in
    dicts r' = dicts r /\ printed r' = printed r /\ delivered r' = delivered r /\
    content_pos r' = content_pos r /\
    content r' = fold_left (fun acc (pl : Z * string) => acc ++ pl.2) tail (content r).
Proof.
  induction 1 as [|[pos line] tail Hl _ IH]; intros r; cbv zeta; cbn [fold_left].
  - repeat split.
  - cbn [snd] in Hl. rewrite (fill_step_body r pos line Hl).
    destruct (IH (Reader (content r ++ line) (content_pos r) (dicts r) (printed r)
                    (delivered r))) as (H1 & H2 & H3 & H4 & H5).
    cbn [dicts printed delivered content_pos content] in *.
    repeat split; assumption.
Qed.

(** X9.  Lines that follow the last header line of the type dump are only
    appended to the buffer: whatever they hold, the catalog, the forward
    references, what was printed and what was delivered are the same as
    without them.  So the record that ends the dump is never processed,
    and a dump without any header line changes nothing. *)
Theorem trailing_lines_are_only_buffered
    (lines tail : list (Z * string)) (cat : gmap string (list pyval)) :
  Forall (fun pl : Z * string => g_type_header_regexp pl.2 = None) tail ->
  let r := fill_types_info lines cat in
  let r' := fill_types_info (lines ++ tail)%list cat in
  dicts r' = dicts r /\ printed r' = printed r /\ delivered r' = delivered r /\
  content_pos r' = content_pos r /\
  content r' = fold_left (fun acc (pl : Z * string) => acc ++ pl.2) tail (content r).
Proof.
  intros Ht r r'. subst r r'. rewrite fill_types_info_app.
  now apply fill_body_lines.
Qed.

Lemma trailing_lines_are_only_buffered_witness :
  let lines := Samples.with_positions 0
                 (Samples.preamble ++ [Samples.line "  0x1000 | LF_STRUCTURE [size = 40] `Foo`"])%list in
  let tail := Samples.with_positions 200 (tail Samples.foo_record) in
  let r := fill_types_info lines Samples.foo_vftable_only in
  let r' := fill_types_info (lines ++ tail)%list Samples.foo_vftable_only in
  dicts r' = dicts r /\ printed r' = printed r /\ delivered r' = delivered r /\
  content_pos r' = content_pos r /\
  content r' = fold_left (fun acc (pl : Z * string) => acc ++ pl.2) tail (content r).
Proof.
  apply (trailing_lines_are_only_buffered
           (Samples.with_positions 0
              (Samples.preamble ++
               [Samples.line "  0x1000 | LF_STRUCTURE [size = 40] `Foo`"])%list)
           (Samples.with_positions 200 (tail Samples.foo_record))
           Samples.foo_vftable_only).
  repeat constructor.
Defined.

(** A property of the catalog that [process_class] keeps is kept by the
    whole pass. *)
Lemma fill_types_info_invariant (P : gmap string (list pyval) -> Prop) :
  (forall content idx st, P (types st) -> P (types (process_class content idx st).1)) ->
  forall lines cat, P cat -> P (types (dicts (fill_types_info lines cat))).
Proof.
  intros Hclass lines cat Hcat. unfold fill_types_info.
  assert (H : P (types (dicts (fill_init cat)))) by assumption.
  revert H. generalize (fill_init cat).
  induction lines as [|[pos line] lines IH]; simpl; intros r H; [assumption|].
  apply IH. unfold fill_step.
  destruct (g_type_header_regexp line); [|assumption].
  destruct (content r) eqn:Ec; [assumption|]. rewrite <- Ec.
  assert (Hp : P (types (process_current_type (content r) (content_pos r) (dicts r)).1)).
  { unfold process_current_type.
    destruct (g_type_header_regexp (content r)) as [[hx leaf]|]; [|assumption].
    unfold bind at 1, lift. destruct (Py.int16 hx) as [idx|]; [|assumption].
    unfold bind.
    destruct (in_list leaf g_wanted_types); unfold set_type_position, ret;
      (destruct (String.eqb leaf "LF_CLASS" || String.eqb leaf "LF_STRUCTURE");
       [now apply Hclass
       | destruct (String.eqb leaf "LF_FIELDLIST"); assumption]). }
  destruct (process_current_type (content r) (content_pos r) (dicts r)) as [st' [[]|e]];
    assumption.
Qed.

Lemma process_class_rva_source cat0 content idx st :
  rva_source cat0 (types st) ->
  rva_source cat0 (types (process_class content idx st).1).
Proof.
  intros Hs.
  destruct (process_class_outcome content idx st)
    as [ | | name elem _ _ _ _ | | name unique fl sz _ _
       | name unique fl sz rva tl _ Hl _ | | ];
    cbn [fst types]; try assumption.
  - intros n e. rewrite lookup_delete. case_decide; [discriminate | apply Hs].
  - intros n e. rewrite lookup_insert. case_decide; [|apply Hs].
    intros [= <-]. right. split; [reflexivity|]. left. reflexivity.
  - intros n e. rewrite lookup_insert. case_decide; [|apply Hs].
    intros [= <-]. subst n. right. split; [reflexivity|]. simpl.
    destruct (Hs name _ Hl) as [H0 | [_ [H0 | (e0 & H0 & H1)]]].
    + right. exists (rva :: tl). auto.
    + left. exact H0.
    + right. exists e0. auto.
Qed.

Lemma fill_types_info_rva_source lines cat0 :
  rva_source cat0 (types (dicts (fill_types_info lines cat0))).
Proof.
  apply fill_types_info_invariant.
  - intros content idx st. apply process_class_rva_source.
  - intros name e H. auto.
Qed.

(** X10.  The type pass never invents an rva.  After it, an entry of the
    catalog is either the very entry the catalog had for that name when
    the pass started, or a five-field list whose first field is [0] or
    the first field of the entry the name had at the start. *)
Theorem type_pass_keeps_rva
    (lines : list (Z * string)) (cat0 : gmap string (list pyval))
    (name : string) (e : list pyval) :
  types (dicts (fill_types_info lines cat0)) !! name = Some e ->
  cat0 !! name = Some e \/
  (length e = 5%nat /\
   (head e = Some (PInt 0) \/ exists e0, cat0 !! name = Some e0 /\ head e = head e0)).
Proof. apply fill_types_info_rva_source. Qed.

Lemma type_pass_keeps_rva_witness :
  Samples.foo_vftable_only !! "Foo" =
    Some [PInt 4128; PInt 4096; PInt 5; PStr ".?AUFoo@@"; PInt 16] \/
  (length [PInt 4128; PInt 4096; PInt 5; PStr ".?AUFoo@@"; PInt 16] = 5%nat /\
   (head [PInt 4128; PInt 4096; PInt 5; PStr ".?AUFoo@@"; PInt 16] = Some (PInt 0) \/
    exists e0, Samples.foo_vftable_only !! "Foo" = Some e0 /\
               head [PInt 4128; PInt 4096; PInt 5; PStr ".?AUFoo@@"; PInt 16] = head e0)).
Proof.
  apply (type_pass_keeps_rva
           (Samples.with_positions 0
              (Samples.preamble ++ Samples.foo_record ++ Samples.pointer_record)%list)
           Samples.foo_vftable_only "Foo").
  vm_compute. reflexivity.
Defined.

(** On a catalog of the two shapes, what the pass prints are record
    errors. *)
Lemma fill_types_info_printed lines cat :
  catalog_shape cat ->
  Forall record_error (printed (fill_types_info lines cat)).
Proof.
  intros Hcat. unfold fill_types_info.
  assert (H : catalog_shape (types (dicts (fill_init cat))) /\
              Forall record_error (printed (fill_init cat))).
  { split; [assumption | constructor]. }
  revert H. generalize (fill_init cat).
  induction lines as [|pl lines IH]; simpl; intros r [Hs Hp]; [assumption|].
  apply IH. split; [now apply fill_step_shape|].
  destruct pl as [pos line]. unfold fill_step.
  destruct (g_type_header_regexp line); [|assumption].
  destruct (content r) eqn:Ec; [assumption|]. rewrite <- Ec.
  destruct (process_current_type (content r) (content_pos r) (dicts r))
    as [st' [[]|e]] eqn:E; [assumption|].
  cbn [printed]. apply Forall_app. split; [assumption|].
  constructor; [|constructor].
  apply (process_current_type_raise _ _ _ _ _ Hs E).
Qed.

(** ** The run as a whole *)

(** X11.  On the text of the three dumps, the run of the core can be
    aborted in these ways only: by the [ValueError] of [int] on a section
    number of more than 4300 digits in the section dump; or, the section
    table being built, by a line of the symbol dump whose address names a
    section that the table does not hold ([KeyError]) or has a field of
    more than 4300 digits ([ValueError]).  The type pass catches what it
    raises and the partition raises nothing. *)
Theorem main_abort_causes
    (sections_file : string) (globals_file : list string)
    (types_file : list (Z * string)) (e : exn) :
  main sections_file globals_file types_file = Raise e ->
  (e = ValueError /\
   Exists (fun p : string * string => ~ convertible p.1) (findall O sections_file)) \/
  (exists section2rva line sec off,
     generate_section2rva sections_file = Ok section2rva /\
     In line globals_file /\
     g_addr_regexp (Py.strip line) = Some (sec ++ ":" ++ off) /\
     decimal sec /\ decimal off /\
     ((convertible sec /\ convertible off /\
       section2rva !! decimal_value sec = None /\ e = KeyError (decimal_value sec)) \/
      ((~ convertible sec \/ ~ convertible off) /\ e = ValueError))).
Proof.
  unfold main. pose proof (generate_section2rva_spec sections_file) as Hg.
  destruct (generate_section2rva sections_file) as [tbl|e0]; simpl.
  2:{ intros [= <-]. left. assumption. }
  intros H.
  destruct (get_types_with_vftable globals_file tbl) as [[cat0 w]|e'] eqn:Eg; simpl in H.
  - exfalso.
    assert (Hs : catalog_shape (types (dicts (fill_types_info types_file cat0)))).
    { apply fill_types_info_shape. eapply get_types_with_vftable_shape; eassumption. }
    destruct (partition_types_groups _ Hs) as (p & Hp & _).
    rewrite Hp in H. discriminate.
  - injection H as <-. right.
    destruct (get_types_with_vftable_raise _ _ _ Eg) as (line & sec & off & H).
    exists tbl, line, sec, off. split; [reflexivity | exact H].
Qed.

Lemma main_abort_causes_witness :
  (KeyError 2 = ValueError /\
   Exists (fun p : string * string => ~ convertible p.1) (findall O Samples.section_1)) \/
  (exists section2rva line sec off,
     generate_section2rva Samples.section_1 = Ok section2rva /\
     In line [Samples.foo_symbol; Samples.addr_2_8] /\
     g_addr_regexp (Py.strip line) = Some (sec ++ ":" ++ off) /\
     decimal sec /\ decimal off /\
     ((convertible sec /\ convertible off /\
       section2rva !! decimal_value sec = None /\
       KeyError 2 = KeyError (decimal_value sec)) \/
      ((~ convertible sec \/ ~ convertible off) /\ KeyError 2 = ValueError))).
Proof.
  apply (main_abort_causes Samples.section_1
           [Samples.foo_symbol; Samples.addr_2_8]
           (Samples.with_positions 0
              (Samples.preamble ++ Samples.foo_record ++ Samples.pointer_record)%list)).
  vm_compute. reflexivity.
Defined.

(** X12.  What a finished run reports.  Every type of the virtual group
    has a vftable symbol, and its rva is the positive rva the symbol pass
    computed for it; every type of the other group has rva [0]; every
    entry of the unexpanded group is the entry of the symbol pass,
    untouched; and what the type pass printed on the way are errors of
    single records: [ValueError], [AttributeError] or [AssertionError]. *)
Theorem main_groups_and_symbols
    (sections_file : string) (globals_file : list string)
    (types_file : list (Z * string)) (p : partition) (log : list exn) :
  main sections_file globals_file types_file = Ok (p, log) ->
  exists section2rva cat0 w,
    generate_section2rva sections_file = Ok section2rva /\
    get_types_with_vftable globals_file section2rva = Ok (cat0, w) /\
    (forall name details,
       virtual_detailed_types p !! name = Some details ->
       exists rva, cat0 !! name = Some [PInt rva] /\ 0 < rva /\
                   head details = Some (PInt rva)) /\
    (forall name details,
       detailed_types p !! name = Some details -> head details = Some (PInt 0)) /\
    (forall name details,
       unexpanded_types p !! name = Some details -> cat0 !! name = Some details) /\
    Forall record_error log.
Proof.
  unfold main. pose proof (generate_section2rva_spec sections_file) as Hg.
  destruct (generate_section2rva sections_file) as [tbl|e0]; [|discriminate].
  destruct Hg as [Htbl _]. simpl. intros H.
  destruct (get_types_with_vftable globals_file tbl) as [[cat0 w]|e'] eqn:Eg;
    simpl in H; [|discriminate].
  pose proof (get_types_with_vftable_shape _ _ _ _ Eg) as Hs0.
  assert (Hs : catalog_shape (types (dicts (fill_types_info types_file cat0))))
    by now apply fill_types_info_shape.
  destruct (partition_types_groups _ Hs) as (p' & Hp & Hin).
  rewrite Hp in H. simpl in H. injection H as <- <-.
  assert (H0 : forall name details, cat0 !! name = Some details ->
                                    exists rva, details = [PInt rva] /\ 0 <= rva).
  { eapply get_types_with_vftable_entries; [|eassumption].
    intros k v Hk. now apply Htbl in Hk. }
  exists tbl, cat0, w. split; [reflexivity|]. split; [assumption|].
  split; [|split; [|split]].
  - intros name details Hv. apply (Hin name details Virtual) in Hv as [Hl Hg].
    destruct (fill_types_info_rva_source _ _ _ _ Hl) as [Hc | [Hlen Hh]].
    + destruct (H0 _ _ Hc) as (rva & -> & _). discriminate.
    + destruct details as [|[rva|] [|? ?]]; try discriminate.
      simpl in Hg. destruct (Z.ltb_spec 0 rva); [|discriminate].
      destruct Hh as [Hh | (e0 & He0 & Hh)].
      * simpl in Hh. injection Hh as ->. lia.
      * destruct (H0 _ _ He0) as (rva0 & -> & _). simpl in Hh.
        injection Hh as ->. exists rva0. auto.
  - intros name details Hv. apply (Hin name details Other) in Hv as [Hl Hg].
    destruct (fill_types_info_rva_source _ _ _ _ Hl) as [Hc | [Hlen Hh]].
    + destruct (H0 _ _ Hc) as (rva & -> & _). discriminate.
    + destruct details as [|[rva|] [|? ?]]; try discriminate.
      simpl in Hg. destruct (Z.ltb_spec 0 rva); [discriminate|].
      destruct Hh as [Hh | (e0 & He0 & Hh)]; [assumption|].
      destruct (H0 _ _ He0) as (rva0 & -> & Hr). simpl in Hh.
      injection Hh as ->. simpl. repeat f_equal. lia.
  - intros name details Hv. apply (Hin name details Unexpanded) in Hv as [Hl Hg].
    destruct (fill_types_info_rva_source _ _ _ _ Hl) as [Hc | [Hlen Hh]]; [assumption|].
    destruct details as [|[rva|] [|? ?]]; try discriminate.
    simpl in Hg. destruct (0 <? rva); discriminate.
  - now apply fill_types_info_printed.
Qed.

Lemma main_groups_and_symbols_witness :
  exists section2rva cat0 w,
    generate_section2rva Samples.section_1 = Ok section2rva /\
    get_types_with_vftable
      [Samples.foo_symbol; Samples.addr_1_32; Samples.bar_symbol; Samples.addr_1_64]
      section2rva = Ok (cat0, w) /\
    (forall name details,
       virtual_detailed_types
         (Partition ∅ Samples.foo_resolved {[ "Bar" := [PInt 4160] ]}) !! name =
         Some details ->
       exists rva, cat0 !! name = Some [PInt rva] /\ 0 < rva /\
                   head details = Some (PInt rva)) /\
    (forall name details,
       detailed_types
         (Partition ∅ Samples.foo_resolved {[ "Bar" := [PInt 4160] ]}) !! name =
         Some details -> head details = Some (PInt 0)) /\
    (forall name details,
       unexpanded_types
         (Partition ∅ Samples.foo_resolved {[ "Bar" := [PInt 4160] ]}) !! name =
         Some details -> cat0 !! name = Some details) /\
    Forall record_error [].
Proof.
  apply (main_groups_and_symbols Samples.section_1
           [Samples.foo_symbol; Samples.addr_1_32; Samples.bar_symbol; Samples.addr_1_64]
           (Samples.with_positions 0
              (Samples.preamble ++ Samples.foo_record ++ Samples.pointer_record)%list)).
  vm_compute. reflexivity.
Defined.

(** ** Repeated records and the make-up of the buffers *)




Lemma append_assoc_text (a b c : string) : (a ++ b) ++ c = a ++ (b ++ c).
Proof.
  induction a as [|x a IH]; [reflexivity|].
  change (String x a ++ b) with (String x (a ++ b)).
  change (String x (a ++ b) ++ c) with (String x ((a ++ b) ++ c)).
  change (String x a ++ (b ++ c)) with (String x (a ++ (b ++ c))).
  now rewrite IH.
Qed.

Lemma join_snoc body l : join (body ++ [l])%list = join body ++ l.
Proof.
  induction body as [|b body IH]; simpl.
  - change ("" ++ l) with l. unfold join. simpl.
    induction l as [|x l IHl]; [reflexivity|].
    change (String x l ++ "") with (String x (l ++ "")). now rewrite IHl.
  - unfold join in *. simpl. rewrite IH. now rewrite append_assoc_text.
Qed.

Lemma buffer_of_line dump c p pos line :
  buffer_of dump c p ->
  In (pos, line) dump ->
  g_type_header_regexp line = None ->
  buffer_of dump (c ++ line) p.
Proof.
  intros (body & Hb & Hc) Hin Hl. exists (body ++ [line])%list. split.
  - apply Forall_app. split; [assumption|]. constructor; [|constructor]. eauto.
  - rewrite join_snoc. destruct Hc as [[-> ->] | (h & Hh & Hm & ->)].
    + left. auto.
    + right. exists h. split; [assumption|]. split; [assumption|].
      now rewrite append_assoc_text.
Qed.

Lemma fill_step_buffers dump r pos line :
  In (pos, line) dump ->
  buffer_of dump (content r) (content_pos r) /\
  Forall (fun cp : string * Z => buffer_of dump cp.1 cp.2) (delivered r) ->
  let r' := fill_step r (pos, line) in
  buffer_of dump (content r') (content_pos r') /\
  Forall (fun cp : string * Z => buffer_of dump cp.1 cp.2) (delivered r').
Proof.
  intros Hin [Hc Hd]. cbv zeta. unfold fill_step.
  destruct (g_type_header_regexp line) as [h|] eqn:Eh.
  - destruct (content r) eqn:Ec; [rewrite Ec; split; assumption|].
    rewrite <- Ec in Hc |- *.
    assert (Hd' : Forall (fun cp : string * Z => buffer_of dump cp.1 cp.2)
                    (delivered r ++ [(content r, content_pos r)])%list).
    { apply Forall_app. split; [assumption|]. constructor; [assumption|constructor]. }
    destruct (process_current_type (content r) (content_pos r) (dicts r))
      as [st' [[]|e]]; cbn [content content_pos delivered]; split; try assumption.
    exists []. split; [constructor|]. right. exists line.
    split; [assumption|]. split; [rewrite Eh; eauto|].
    unfold join. simpl.
    clear. induction line as [|x l IH]; [reflexivity|].
    change (String x l ++ "") with (String x (l ++ "")). now rewrite <- IH.
  - cbn [content content_pos delivered]. split; [|assumption].
    eapply buffer_of_line; eassumption.
Qed.

(** X14.  What the classifier receives is made of lines of the dump and
    of nothing else: each delivered buffer is a header line of the dump,
    with the position that line was read at, followed by lines of the dump
    that are not header lines; or, with the initial position [-1], lines
    that are not header lines only.  No header line ever lands inside a
    buffer. *)
Theorem delivered_buffers_are_records
    (lines : list (Z * string)) (cat : gmap string (list pyval)) :
  Forall (fun cp : string * Z => buffer_of lines cp.1 cp.2)
    (delivered (fill_types_info lines cat)).
Proof.
  unfold fill_types_info.
  assert (Hgen : forall rest r,
             (forall x, In x rest -> In x lines) ->
             buffer_of lines (content r) (content_pos r) /\
             Forall (fun cp : string * Z => buffer_of lines cp.1 cp.2) (delivered r) ->
             let r' := fold_left fill_step rest r in
             buffer_of lines (content r') (content_pos r') /\
             Forall (fun cp : string * Z => buffer_of lines cp.1 cp.2) (delivered r')).
  { induction rest as [|[pos line] rest IH]; intros r Hsub Hr; cbv zeta; cbn [fold_left].
    - assumption.
    - apply IH; [intros x Hx; apply Hsub; now right|].
      apply fill_step_buffers; [apply Hsub; now left | assumption]. }
  apply (Hgen lines (fill_init cat)); [auto|].
  split; [|constructor]. exists []. split; [constructor|]. left. auto.
Qed.
